(** * CineMatch: the recommendation engine of [app.py]

    A shallow embedding of the data loading ([load_data]), the ranking
    ([recommend_movie]) and the poster lookup ([fetch_poster]) of
    [src/app.py], and the properties of the specification proved on it.

    Conventions of the embedding.
    - Python [int] is [Z]; positions produced by [enumerate] are [nat].
    - Similarity scores are finite IEEE doubles in the program.  They are
      embedded as rationals [Q]: every finite double is a rational and the
      two orders agree.  A NaN score is outside the model.
    - A pandas [DataFrame] is its list of rows in load order, each row
      carrying its index label; the ['title'] column is always there (the
      script stops right after loading when it is not), the ['id'] column
      may be absent.  The script looks a title up through the index
      ([.index[0]]) and reads rows by position ([.iloc]); the data model of
      the specification assigns positions by load order, which is the
      default index of pandas, [RangeIndex] below.
    - A two-dimensional numpy array is its column count and its list of rows.
    - A Python exception is a value of [exn]; code that may raise returns a
      [result].
    - [st.cache_data] memoises a function of its arguments.  [load_data]
      and [recommend_movie] read only their arguments and the two values
      loaded once, so the memoised function and the function agree.
      [fetch_poster] reads the network: [fetch_poster] below is the body,
      what a call does when it is not served from the cache, and
      [fetch_poster_cached] is the decorated function. *)

From Stdlib Require Import String Ascii.
From Stdlib Require Import List ZArith QArith Bool Lia.
From Stdlib Require Import Sorting.Sorted Sorting.Permutation.
From Stdlib Require Import DecimalString.
Import ListNotations.

Open Scope Z_scope.

(* ================================================================= *)
(** ** Exceptions *)

Inductive exn : Type :=
| IndexError
| ValueError
| TypeError
| AttributeError
| RequestException
| JSONDecodeError.

Inductive result (A : Type) : Type :=
| Return (a : A)
| Raise (e : exn).

Arguments Return {A} a.
Arguments Raise {A} e.

Definition bind {A B : Type} (m : result A) (k : A -> result B) : result B :=
  match m with
  | Return a => k a
  | Raise e => Raise e
  end.

Notation "x <- m ;; k" := (bind m (fun x => k))
  (at level 61, m at next level, right associativity).

(** [for x in xs: results.append(f x)]: the first exception leaves the loop. *)
Fixpoint for_each {A B : Type} (f : A -> result B) (xs : list A)
  : result (list B) :=
  match xs with
  | [] => Return []
  | x :: xs' =>
      y <- f x ;;
      ys <- for_each f xs' ;;
      Return (y :: ys)
  end.

(* ================================================================= *)
(** ** Python built-ins used by the engine *)

Module Py.

(** [list(enumerate(xs))], counting from [start]. *)
Fixpoint enumerate_from {A : Type} (start : nat) (xs : list A)
  : list (nat * A) :=
  match xs with
  | [] => []
  | x :: xs' => (start, x) :: enumerate_from (S start) xs'
  end.

Definition enumerate {A : Type} (xs : list A) : list (nat * A) :=
  enumerate_from 0 xs.

(** One bound of a slice, as [PySlice_AdjustIndices] clamps it for a
    positive step: a negative bound counts from the end. *)
Definition adjust (len i : Z) : Z :=
  if i <? 0 then Z.max (i + len) 0 else Z.min i len.

(** [xs[start:stop]]. *)
Definition slice {A : Type} (xs : list A) (start stop : Z) : list A :=
  let len := Z.of_nat (length xs) in
  let lo := adjust len start in
  let hi := adjust len stop in
  firstn (Z.to_nat (hi - lo)) (skipn (Z.to_nat lo) xs).

(** [sorted(xs, key=key, reverse=True)].  Python's sort is stable, and
    with [reverse=True] elements with equal keys keep their original
    order: an element moves past exactly the elements whose key is
    strictly greater. *)
Fixpoint insert_reverse {A : Type} (key : A -> Q) (x : A) (l : list A)
  : list A :=
  match l with
  | [] => [x]
  | y :: l' =>
      match Qcompare (key x) (key y) with
      | Lt => y :: insert_reverse key x l'
      | _ => x :: y :: l'
      end
  end.

Definition sorted_reverse {A : Type} (key : A -> Q) (xs : list A) : list A :=
  fold_right (insert_reverse key) [] xs.

(** [int(x)] on a finite number: truncation towards zero. *)
Definition int (q : Q) : Z := Z.quot (Qnum q) (Zpos (Qden q)).

(** [str(n)] for an [int], as an f-string interpolates it. *)
Definition str (n : Z) : string := NilZero.string_of_int (Z.to_int n).

End Py.

(* ================================================================= *)
(** ** numpy arrays *)

Module Np.

Record ndarray : Type := mk_ndarray {
  ncols : nat;
  rows : list (list Q)
}.

Definition nrows (a : ndarray) : nat := length (rows a).

Definition shape (a : ndarray) : nat * nat := (nrows a, ncols a).

(** Every row has [ncols] entries. *)
Definition rectangular (a : ndarray) : Prop :=
  Forall (fun r => length r = ncols a) (rows a).

(** [a[idx]] for an integer [idx]: a negative index counts from the last
    row, and an index outside [-nrows .. nrows-1] raises [IndexError]. *)
Definition getitem (a : ndarray) (idx : Z) : result (list Q) :=
  let n := Z.of_nat (nrows a) in
  let i := if idx <? 0 then idx + n else idx in
  if (0 <=? i) && (i <? n) then
    match nth_error (rows a) (Z.to_nat i) with
    | Some r => Return r
    | None => Raise IndexError
    end
  else Raise IndexError.

(** [np.concatenate((a, b), axis=0)]: the column counts must agree. *)
Definition concat2 (a b : ndarray) : result ndarray :=
  if Nat.eqb (ncols a) (ncols b)
  then Return (mk_ndarray (ncols a) (rows a ++ rows b))
  else Raise ValueError.

(** [np.concatenate(arrays, axis=0)]. *)
Fixpoint concatenate_from (acc : ndarray) (arrays : list ndarray)
  : result ndarray :=
  match arrays with
  | [] => Return acc
  | a :: arrays' =>
      acc' <- concat2 acc a ;;
      concatenate_from acc' arrays'
  end.

Definition concatenate (arrays : list ndarray) : result ndarray :=
  match arrays with
  | [] => Raise ValueError
  | a :: arrays' => concatenate_from a arrays'
  end.

End Np.

(* ================================================================= *)
(** ** pandas frames *)

Module Pd.

(** A cell of the ['id'] column: a missing value ([NaN], [None]) or a
    number. *)
Inductive cell : Type :=
| NaN
| Num (q : Q).

Definition isna (c : cell) : bool :=
  match c with
  | NaN => true
  | Num _ => false
  end.

Record row : Type := mk_row {
  label : Z;
  title : string;
  id : cell
}.

Record DataFrame : Type := mk_frame {
  has_id : bool;
  records : list row
}.

(** [df[df['title'] == name]]: the rows whose title is [name], in order,
    each with its label. *)
Definition select_title (df : DataFrame) (name : string) : DataFrame :=
  mk_frame (has_id df)
           (filter (fun r => String.eqb (title r) name) (records df)).

(** [df.index[k]]. *)
Definition index_at (df : DataFrame) (k : nat) : result Z :=
  match nth_error (records df) k with
  | Some r => Return (label r)
  | None => Raise IndexError
  end.

(** [df.iloc[i]] for [i >= 0]. *)
Definition iloc (df : DataFrame) (i : nat) : result row :=
  match nth_error (records df) i with
  | Some r => Return r
  | None => Raise IndexError
  end.

End Pd.

(* ================================================================= *)
(** ** [load_data] *)

(** The four pickled artefacts the script opens.  [movies.pkl] holds a
    [DataFrame] (what [pd.DataFrame(movies)] yields otherwise). *)
Record pickles : Type := mk_pickles {
  movies_pkl : Pd.DataFrame;
  similarity_part_0 : Np.ndarray;
  similarity_part_1 : Np.ndarray;
  similarity_part_2 : Np.ndarray
}.

Definition load_data (files : pickles) : result (Pd.DataFrame * Np.ndarray) :=
  let movies := movies_pkl files in
  let part0 := similarity_part_0 files in
  let part1 := similarity_part_1 files in
  let part2 := similarity_part_2 files in
  similarity <- Np.concatenate [part0; part1; part2] ;;
  Return (movies, similarity).

(* ================================================================= *)
(** ** [recommend_movie] *)

(** One element of the result: [(title, score, external id)]. *)
Definition recommendation : Type := (string * Q * Z)%type.

(** [int(mid)] on a cell: [int(float('nan'))] raises. *)
Definition int_of_cell (c : Pd.cell) : result Z :=
  match c with
  | Pd.Num q => Return (Py.int q)
  | Pd.NaN => Raise ValueError
  end.

(** The body of the loop over the selected candidates. *)
Definition result_entry (movies : Pd.DataFrame) (c : nat * Q)
  : result recommendation :=
  let '(i, score) := c in
  mrow <- Pd.iloc movies i ;;
  let mid := if Pd.has_id movies then Pd.id mrow else Pd.Num (-1 # 1) in
  ext <- (if negb (Pd.isna mid) then int_of_cell mid else Return (-1)) ;;
  Return (Pd.title mrow, score, ext).

(** The index label [recommend_movie] resolves [movie_name] to:
    [int(movies[movies['title'] == movie_name].index[0])]. *)
Definition resolve (movies : Pd.DataFrame) (movie_name : string) : result Z :=
  Pd.index_at (Pd.select_title movies movie_name) 0.

(** The candidates after sorting, before the slice. *)
Definition ranked (distances : list Q) : list (nat * Q) :=
  Py.sorted_reverse snd (Py.enumerate distances).

Definition recommend_movie (movies : Pd.DataFrame) (similarity : Np.ndarray)
  (movie_name : string) (top_n : Z) : result (list recommendation) :=
  match resolve movies movie_name with
  | Raise _ => Return []
  | Return idx =>
      distances <- Np.getitem similarity idx ;;
      let S := Py.slice (ranked distances) 1 (top_n + 1) in
      for_each (result_entry movies) S
  end.

(* ================================================================= *)
(** ** [fetch_poster] *)

Module Requests.

(** A decoded JSON document, as [resp.json()] returns it. *)
#[local] Unset Elimination Schemes.
Inductive value : Type :=
| VNone
| VBool (b : bool)
| VInt (n : Z)
| VFloat (q : Q)
| VStr (s : string)
| VList (l : list value)
| VDict (d : list (string * value)).
#[local] Set Elimination Schemes.

(** Truth value of an object in [if path:]. *)
Definition truthy (v : value) : bool :=
  match v with
  | VNone => false
  | VBool b => b
  | VInt n => negb (n =? 0)
  | VFloat q => negb (Qeq_bool q 0)
  | VStr s => negb (String.eqb s EmptyString)
  | VList l => match l with [] => false | _ => true end
  | VDict d => match d with [] => false | _ => true end
  end.

Fixpoint lookup (key : string) (d : list (string * value)) : option value :=
  match d with
  | [] => None
  | (k, v) :: d' => if String.eqb k key then Some v else lookup key d'
  end.

(** [data.get(key, None)]: only a dict has the method. *)
Definition get (data : value) (key : string) : result value :=
  match data with
  | VDict d =>
      match lookup key d with
      | Some v => Return v
      | None => Return VNone
      end
  | _ => Raise AttributeError
  end.

(** [prefix + v] for a [str] prefix. *)
Definition str_add (prefix : string) (v : value) : result string :=
  match v with
  | VStr s => Return (String.append prefix s)
  | _ => Raise TypeError
  end.

(** What the server answered: the status code, and the decoded body (or
    the exception [resp.json()] raises on a body that is not JSON). *)
Record response : Type := mk_response {
  status_code : Z;
  json : result value
}.

(** The outside world: what a GET of a URL yields, a response or the
    exception of a transport failure (connection error, timeout). *)
Definition network : Type := string -> result response.

End Requests.

(** Code that talks to the network: it threads the log of the URLs
    requested so far and may raise. *)
Definition IO (A : Type) : Type := list string -> result A * list string.

Definition io_ret {A : Type} (a : A) : IO A := fun log => (Return a, log).

Definition io_lift {A : Type} (r : result A) : IO A := fun log => (r, log).

Definition io_bind {A B : Type} (m : IO A) (k : A -> IO B) : IO B :=
  fun log =>
    match m log with
    | (Return a, log') => k a log'
    | (Raise e, log') => (Raise e, log')
    end.

(** [try: body / except Exception: handler]. *)
Definition io_try {A : Type} (body : IO A) (handler : exn -> IO A) : IO A :=
  fun log =>
    match body log with
    | (Return a, log') => (Return a, log')
    | (Raise e, log') => handler e log'
    end.

(** [requests.get(url, timeout=5)]: one request, logged. *)
Definition requests_get (net : Requests.network) (url : string)
  : IO Requests.response :=
  fun log => (net url, log ++ [url]).

Notation "x <~ m ;; k" := (io_bind m (fun x => k))
  (at level 61, m at next level, right associativity).

Definition poster_url (tmdb_id : Z) (api_key : string) : string :=
  ("https://api.themoviedb.org/3/movie/" ++ Py.str tmdb_id
   ++ "?api_key=" ++ api_key ++ "&language=en-US")%string.

Definition image_base : string := "https://image.tmdb.org/t/p/w500"%string.

(** The body of [fetch_poster]: what a call does when [st.cache_data]
    does not serve it from the cache.  The decorated function is
    [fetch_poster_cached] below. *)
Definition fetch_poster (net : Requests.network) (tmdb_id : Z)
  (api_key : string) : IO string :=
  if (tmdb_id <? 0) || String.eqb api_key EmptyString then io_ret EmptyString
  else
    io_try
      (let url := poster_url tmdb_id api_key in
       resp <~ requests_get net url ;;
       if Requests.status_code resp =? 200 then
         data <~ io_lift (Requests.json resp) ;;
         path <~ io_lift (Requests.get data "poster_path"%string) ;;
         if Requests.truthy path
         then io_lift (Requests.str_add image_base path)
         else io_ret EmptyString
       else io_ret EmptyString)
      (fun _ => io_ret EmptyString).

(** [@st.cache_data] on [fetch_poster]: the results of earlier calls,
    by arguments. *)
Definition poster_cache : Type := list ((Z * string) * string).

Fixpoint cache_lookup (tmdb_id : Z) (api_key : string) (c : poster_cache)
  : option string :=
  match c with
  | [] => None
  | ((i, k), v) :: c' =>
      if (i =? tmdb_id) && String.eqb k api_key then Some v
      else cache_lookup tmdb_id api_key c'
  end.

(** The decorated function: a call whose arguments are in the cache
    returns the stored value and the body does not run; otherwise the
    body runs and what it returns is stored. *)
Definition fetch_poster_cached (net : Requests.network) (tmdb_id : Z)
  (api_key : string) (c : poster_cache) (log : list string)
  : result string * poster_cache * list string :=
  match cache_lookup tmdb_id api_key c with
  | Some v => (Return v, c, log)
  | None =>
      match fetch_poster net tmdb_id api_key log with
      | (Return v, log') => (Return v, ((tmdb_id, api_key), v) :: c, log')
      | (Raise e, log') => (Raise e, c, log')
      end
  end.

(* ================================================================= *)
(** ** The data model of the specification *)

(** [N], the number of movies. *)
Definition catalog_size (movies : Pd.DataFrame) : nat :=
  length (Pd.records movies).

(** The catalog carries the index pandas gives a frame by default: the
    label of a row is its position in load order, [0 .. N-1]. *)
Definition RangeIndex (movies : Pd.DataFrame) : Prop :=
  map Pd.label (Pd.records movies)
  = map Z.of_nat (seq 0 (catalog_size movies)).

(** [name] is the title of some movie of the catalog. *)
Definition in_catalog (movies : Pd.DataFrame) (name : string) : Prop :=
  exists r, In r (Pd.records movies) /\ Pd.title r = name.

(** [p] is the lowest position whose title is exactly [name]. *)
Definition first_position (movies : Pd.DataFrame) (name : string) (p : nat)
  : Prop :=
  (exists r, nth_error (Pd.records movies) p = Some r /\ Pd.title r = name)
  /\ forall q r, (q < p)%nat -> nth_error (Pd.records movies) q = Some r ->
                 Pd.title r <> name.

(** The similarity matrix is [N x N] for the [N] movies of the catalog. *)
Definition square_for (movies : Pd.DataFrame) (similarity : Np.ndarray)
  : Prop :=
  Np.rectangular similarity
  /\ Np.shape similarity = (catalog_size movies, catalog_size movies).

(** The "unknown" external identifier. *)
Definition sentinel : Z := -1.

(** The external identifier of a catalog row: the sentinel when the
    catalog has no ['id'] column or the value is missing, the value as an
    integer otherwise. *)
Definition external_id (movies : Pd.DataFrame) (r : Pd.row) : Z :=
  if Pd.has_id movies then
    match Pd.id r with
    | Pd.NaN => sentinel
    | Pd.Num q => Py.int q
    end
  else sentinel.

(** The components of a result tuple. *)
Definition title_of (o : recommendation) : string := fst (fst o).
Definition score_of (o : recommendation) : Q := snd (fst o).
Definition ext_of (o : recommendation) : Z := snd o.

(** [o] is the result tuple of the movie at catalog position [p], scored
    against the row [distances]. *)
Definition entry_at (movies : Pd.DataFrame) (distances : list Q) (p : nat)
  (o : recommendation) : Prop :=
  exists r, nth_error (Pd.records movies) p = Some r
            /\ nth_error distances p = Some (score_of o)
            /\ o = (Pd.title r, score_of o, external_id movies r).

(** The entries at ranks [1 .. n] of a ranked sequence. *)
Definition ranks_1_to {A : Type} (n : nat) (l : list A) : list A :=
  firstn n (skipn 1 l).

(** The order of the ranking: [c] goes before [d] when its score is
    strictly higher, or when the scores are equal and its position is
    lower. *)
Definition precedes (c d : nat * Q) : Prop :=
  (snd d < snd c)%Q \/ ((snd c == snd d)%Q /\ (fst c < fst d)%nat).

(** What the specification asks of loading: a stitched matrix whose row
    count differs from its column count or from the catalog size makes
    the load fail. *)
Definition fails_on_mismatch (files : pickles) : Prop :=
  let n := (Np.nrows (similarity_part_0 files)
            + Np.nrows (similarity_part_1 files)
            + Np.nrows (similarity_part_2 files))%nat in
  n <> Np.ncols (similarity_part_0 files)
  \/ n <> catalog_size (movies_pkl files) ->
  exists e, load_data files = Raise e.

(* ================================================================= *)
(** ** The sidebar and the page

    The widgets are read as values: what the user set them to.  The
    caption [int(score*100)] is floating-point arithmetic, which the
    rational scores do not carry: the page takes it as [percent], the
    integer it shows or the exception [int] raises on a product that is
    not finite. *)

Module Ui.

(** [DEFAULT_API_KEY]: the secret when it is configured, [""] otherwise. *)
Definition default_api_key (secret : option string) : string :=
  match secret with
  | Some k => k
  | None => EmptyString
  end.

(** The state of the widgets of one run of the script. *)
Record widgets : Type := mk_widgets {
  slider : Z;
  checkbox : bool;
  text_input : string;
  selectbox : string;
  button : bool
}.

(** What the sidebar block leaves in [n_recs], [use_posters] and
    [tmdb_api_key].  [len] counts the characters of the key; a key is
    ASCII, one character per byte. *)
Record settings : Type := mk_settings {
  n_recs : Z;
  use_posters : bool;
  tmdb_api_key : string
}.

Definition sidebar (DEFAULT_API_KEY : string) (w : widgets) : settings :=
  let n_recs := slider w in
  if 10 <? Z.of_nat (String.length DEFAULT_API_KEY) then
    mk_settings n_recs true DEFAULT_API_KEY
  else
    let use_posters := checkbox w in
    let tmdb_api_key := if use_posters then text_input w else EmptyString in
    mk_settings n_recs use_posters tmdb_api_key.

Definition cols_per_row : nat := 3.

(** [rows = (len(recs) + cols_per_row - 1) // cols_per_row]. *)
Definition grid_rows (len : nat) : nat :=
  ((len + cols_per_row - 1) / cols_per_row)%nat.

(** The two loops of the grid: row [i], column [j] shows [recs[idx]] for
    [idx = i * cols_per_row + j] when [idx < len(recs)], and stays empty
    otherwise. *)
Definition grid {A B : Type} (show : A -> B) (recs : list A)
  : list (list (option B)) :=
  map (fun i =>
         map (fun j =>
                let idx := (i * cols_per_row + j)%nat in
                if (idx <? length recs)%nat
                then option_map show (nth_error recs idx)
                else None)
             (seq 0 cols_per_row))
      (seq 0 (grid_rows (length recs))).

(** What a column shows. *)
Record card : Type := mk_card {
  card_image : option string;
  card_title : string;
  card_score : Q
}.

Definition placeholder : string :=
  "https://via.placeholder.com/300x450?text=No+Poster"%string.

(** The body of [with cols[j]:].  [poster] is the memoised
    [fetch_poster], a function of the id and the key. *)
Definition card_of (poster : Z -> string -> string) (s : settings)
  (rec : recommendation) : card :=
  let '(title, score, mid) := rec in
  let image :=
    if use_posters s && negb (String.eqb (tmdb_api_key s) EmptyString) then
      let poster_url := poster mid (tmdb_api_key s) in
      if negb (String.eqb poster_url EmptyString)
      then Some poster_url
      else Some placeholder
    else None in
  mk_card image title score.

(** One column of the grid: the image and the title, then the caption,
    which may raise. *)
Definition cell_of (poster : Z -> string -> string)
  (percent : Q -> result Z) (s : settings) (rec : recommendation)
  : result (card * Z) :=
  let c := card_of poster s rec in
  pct <- percent (card_score c) ;;
  Return (c, pct).

(** The two loops of the grid when filling a column may raise: the
    columns are filled in the order of [idx], and the first exception
    leaves the loops. *)
Definition grid_m {A B : Type} (show : A -> result B) (recs : list A)
  : result (list (list (option B))) :=
  for_each
    (fun i =>
       for_each
         (fun j =>
            let idx := (i * cols_per_row + j)%nat in
            if (idx <? length recs)%nat then
              match nth_error recs idx with
              | Some rec => y <- show rec ;; Return (Some y)
              | None => Raise IndexError
              end
            else Return None)
         (seq 0 cols_per_row))
    (seq 0 (grid_rows (length recs))).

(** What the page shows below the selector. *)
Inductive page : Type :=
| Idle
| Warning
| Cards (rows : list (list (option (card * Z)))).

(** The script from the sidebar to the grid. *)
Definition main (movies : Pd.DataFrame) (similarity : Np.ndarray)
  (poster : Z -> string -> string) (percent : Q -> result Z)
  (DEFAULT_API_KEY : string) (w : widgets) : result page :=
  let s := sidebar DEFAULT_API_KEY w in
  let selected_movie := selectbox w in
  if button w then
    recs <- recommend_movie movies similarity selected_movie (n_recs s) ;;
    match recs with
    | [] => Return Warning
    | _ =>
        rows <- grid_m (cell_of poster percent s) recs ;;
        Return (Cards rows)
    end
  else Return Idle.

(** The cards of a grid in reading order. *)
Definition shown {B : Type} (rows : list (list (option B))) : list B :=
  flat_map (flat_map (fun c => match c with Some x => [x] | None => [] end))
           rows.

End Ui.

(** What a call of the memoised [fetch_poster] returns while the endpoint
    answers as [net]. *)
Definition poster_of (net : Requests.network) (tmdb_id : Z)
  (api_key : string) : string :=
  match fst (fetch_poster net tmdb_id api_key []) with
  | Return s => s
  | Raise _ => EmptyString
  end.

(** [title_list = movies['title'].values]. *)
Definition title_list (movies : Pd.DataFrame) : list string :=
  map Pd.title (Pd.records movies).

(* ================================================================= *)
(** ** Example data

    The catalog [A, B, C, D] of the specification, with the similarity
    row [1.0, 0.9, 0.95, 0.2] for [A], cut into three chunks. *)

Definition example_movies : Pd.DataFrame :=
  Pd.mk_frame true
    [ Pd.mk_row 0 "A" (Pd.Num (862 # 1));
      Pd.mk_row 1 "B" Pd.NaN;
      Pd.mk_row 2 "C" (Pd.Num (8844 # 1));
      Pd.mk_row 3 "D" (Pd.Num (15602 # 1)) ].

Definition example_part_0 : Np.ndarray :=
  Np.mk_ndarray 4 [ [1; 9 # 10; 95 # 100; 2 # 10];
                    [9 # 10; 1; 5 # 10; 5 # 10] ]%Q.

Definition example_part_1 : Np.ndarray :=
  Np.mk_ndarray 4 [ [95 # 100; 5 # 10; 1; 3 # 10] ]%Q.

Definition example_part_2 : Np.ndarray :=
  Np.mk_ndarray 4 [ [2 # 10; 5 # 10; 3 # 10; 1] ]%Q.

Definition example_similarity : Np.ndarray :=
  Np.mk_ndarray 4 (Np.rows example_part_0 ++ Np.rows example_part_1
                   ++ Np.rows example_part_2).

Definition example_files : pickles :=
  mk_pickles example_movies example_part_0 example_part_1 example_part_2.

(** The same catalog with a last chunk that holds no row: the stitched
    matrix is [3 x 4]. *)
Definition short_files : pickles :=
  mk_pickles example_movies example_part_0 example_part_1
             (Np.mk_ndarray 4 []).

(** A matrix in which [A] is closer to [B] than to itself. *)
Definition skewed_similarity : Np.ndarray :=
  Np.mk_ndarray 4 [ [5 # 10; 1; 2 # 10; 1 # 10];
                    [1; 1; 0; 0];
                    [2 # 10; 0; 1; 0];
                    [1 # 10; 0; 0; 1] ]%Q.

(** A catalog in which the title [A] occurs at positions 0 and 2. *)
Definition duplicate_movies : Pd.DataFrame :=
  Pd.mk_frame false
    [ Pd.mk_row 0 "A" Pd.NaN; Pd.mk_row 1 "B" Pd.NaN; Pd.mk_row 2 "A" Pd.NaN ].

(** The catalog [A, B] after two earlier rows were dropped: the labels
    are [2, 3], the positions [0, 1]. *)
Definition relabelled_movies : Pd.DataFrame :=
  Pd.mk_frame false [ Pd.mk_row 2 "A" Pd.NaN; Pd.mk_row 3 "B" Pd.NaN ].


(** Two captions: one computed exactly, one that always fails. *)
Definition exact_percent : Q -> result Z :=
  fun score => Return (Py.int (score * 100)).

Definition failing_percent : Q -> result Z :=
  fun _ => Raise ValueError.

(** Four states of the metadata endpoint: unreachable; answering 404;
    answering 200 with an object that has no [poster_path]; answering 200
    with a poster path. *)
Definition net_down : Requests.network :=
  fun _ => Raise RequestException.

Definition net_not_found : Requests.network :=
  fun _ => Return (Requests.mk_response 404 (Return (Requests.VDict []))).

Definition net_no_path : Requests.network :=
  fun _ => Return (Requests.mk_response 200
                     (Return (Requests.VDict [("id"%string, Requests.VInt 862)]))).

Definition net_ok : Requests.network :=
  fun _ => Return (Requests.mk_response 200
                     (Return (Requests.VDict
                                [("poster_path"%string,
                                  Requests.VStr "/a.jpg")]))).

(* ================================================================= *)
(** * Properties *)

(* ================================================================= *)
(** ** The error monad *)

Lemma bind_Return_inv (A B : Type) (m : result A) (k : A -> result B)
  (b : B) :
  bind m k = Return b -> exists a, m = Return a /\ k a = Return b.
Proof.
  destruct m as [a | e]; simpl; intros H.
  - exists a. split; [reflexivity | exact H].
  - discriminate H.
Qed.

(** A loop whose body succeeds on every element succeeds, and pairs every
    element with what the body returned for it. *)
Lemma for_each_total (A B : Type) (f : A -> result B) (xs : list A) :
  Forall (fun x => exists y, f x = Return y) xs ->
  exists ys, for_each f xs = Return ys
             /\ Forall2 (fun x y => f x = Return y) xs ys.
Proof.
  induction 1 as [| x xs [y Hy] _ [ys [Hys HF]]].
  - exists []. split; [reflexivity | constructor].
  - exists (y :: ys). simpl. rewrite Hy. simpl. rewrite Hys. simpl.
    split; [reflexivity | constructor; assumption].
Qed.

Lemma for_each_Return_inv (A B : Type) (f : A -> result B) (xs : list A)
  (ys : list B) :
  for_each f xs = Return ys -> Forall2 (fun x y => f x = Return y) xs ys.
Proof.
  revert ys. induction xs as [| x xs IH]; simpl; intros ys H.
  - injection H as <-. constructor.
  - apply bind_Return_inv in H as [y [Hy H]].
    apply bind_Return_inv in H as [ys' [Hys H]].
    injection H as <-. constructor; [exact Hy | apply IH, Hys].
Qed.

(* ================================================================= *)
(** ** Lists: [enumerate] and slices *)

Lemma enumerate_from_fst (A : Type) (xs : list A) (n : nat) :
  map fst (Py.enumerate_from n xs) = seq n (length xs).
Proof.
  revert n. induction xs as [| x xs IH]; intros n; simpl.
  - reflexivity.
  - f_equal. apply IH.
Qed.

Lemma enumerate_from_snd (A : Type) (xs : list A) (n : nat) :
  map snd (Py.enumerate_from n xs) = xs.
Proof.
  revert n. induction xs as [| x xs IH]; intros n; simpl.
  - reflexivity.
  - f_equal. apply IH.
Qed.

Lemma enumerate_from_nth (A : Type) (xs : list A) (n k : nat) :
  nth_error (Py.enumerate_from n xs) k
  = option_map (fun x => ((n + k)%nat, x)) (nth_error xs k).
Proof.
  revert n k. induction xs as [| x xs IH]; intros n k.
  - destruct k; reflexivity.
  - destruct k as [| k]; simpl.
    + rewrite Nat.add_0_r. reflexivity.
    + rewrite IH. rewrite Nat.add_succ_r. reflexivity.
Qed.

Lemma enumerate_from_In (A : Type) (xs : list A) (n i : nat) (x : A) :
  In (i, x) (Py.enumerate_from n xs) <->
  (n <= i)%nat /\ nth_error xs (i - n) = Some x.
Proof.
  revert n. induction xs as [| y xs IH]; intros n; simpl.
  - split; [tauto |]. intros [_ H]. destruct (i - n)%nat; discriminate H.
  - rewrite IH. split.
    + intros [H | [Hle Hn]].
      * injection H as <- <-. split; [lia |].
        rewrite Nat.sub_diag. reflexivity.
      * split; [lia |].
        replace (i - n)%nat with (S (i - S n)) by lia. exact Hn.
    + intros [Hle Hn]. destruct (Nat.eq_dec n i) as [<- | Hne].
      * left. rewrite Nat.sub_diag in Hn. injection Hn as <-. reflexivity.
      * right. split; [lia |].
        replace (i - n)%nat with (S (i - S n)) in Hn by lia. exact Hn.
Qed.

Lemma firstn_min_length (A : Type) (n : nat) (l : list A) :
  firstn (Nat.min n (length l)) l = firstn n l.
Proof.
  destruct (Nat.le_ge_cases n (length l)) as [H | H].
  - rewrite Nat.min_l by exact H. reflexivity.
  - rewrite Nat.min_r by exact H.
    rewrite firstn_all. symmetry. apply firstn_all2. exact H.
Qed.

(** For a non-negative count, [xs[1 : n + 1]] is the [n] elements that
    follow the first one. *)
Lemma slice_from_1 (A : Type) (xs : list A) (n : Z) :
  0 <= n -> Py.slice xs 1 (n + 1) = firstn (Z.to_nat n) (skipn 1 xs).
Proof.
  intros Hn. unfold Py.slice, Py.adjust.
  destruct (Z.ltb_spec 1 0) as [H | _]; [lia |].
  destruct (Z.ltb_spec (n + 1) 0) as [H | _]; [lia |].
  destruct xs as [| x xs].
  - simpl. rewrite firstn_nil. destruct (Z.to_nat n); reflexivity.
  - assert (Hlen : Z.of_nat (length (x :: xs)) = Z.of_nat (length xs) + 1)
      by (simpl length; lia).
    rewrite Hlen.
    replace (Z.min 1 (Z.of_nat (length xs) + 1)) with 1 by lia.
    change (Z.to_nat 1) with 1%nat. simpl skipn.
    replace (Z.to_nat (Z.min (n + 1) (Z.of_nat (length xs) + 1) - 1))
      with (Nat.min (Z.to_nat n) (length xs)) by lia.
    apply firstn_min_length.
Qed.

Lemma In_firstn (A : Type) (n : nat) (l : list A) (x : A) :
  In x (firstn n l) -> In x l.
Proof.
  intros H. rewrite <- (firstn_skipn n l). apply in_or_app. left. exact H.
Qed.

Lemma In_skipn (A : Type) (n : nat) (l : list A) (x : A) :
  In x (skipn n l) -> In x l.
Proof.
  intros H. rewrite <- (firstn_skipn n l). apply in_or_app. right. exact H.
Qed.

(** A slice only ever selects elements of the list. *)
Lemma slice_incl (A : Type) (xs : list A) (start stop : Z) (x : A) :
  In x (Py.slice xs start stop) -> In x xs.
Proof.
  unfold Py.slice. intros H.
  apply In_firstn in H. apply In_skipn in H. exact H.
Qed.

(* ================================================================= *)
(** ** The sort *)

Section SortedReverse.

Variable A : Type.
Variable key : A -> Q.

Lemma insert_reverse_perm (x : A) (l : list A) :
  Permutation (Py.insert_reverse key x l) (x :: l).
Proof.
  induction l as [| y l IH]; simpl.
  - apply Permutation_refl.
  - destruct (Qcompare (key x) (key y)).
    + apply Permutation_refl.
    + apply perm_trans with (y :: x :: l).
      * apply perm_skip, IH.
      * apply perm_swap.
    + apply Permutation_refl.
Qed.

Lemma sorted_reverse_perm (l : list A) :
  Permutation (Py.sorted_reverse key l) l.
Proof.
  induction l as [| x l IH]; simpl.
  - apply perm_nil.
  - apply perm_trans with (x :: Py.sorted_reverse key l).
    + apply insert_reverse_perm.
    + apply perm_skip, IH.
Qed.

Lemma sorted_reverse_length (l : list A) :
  length (Py.sorted_reverse key l) = length l.
Proof. apply Permutation_length, sorted_reverse_perm. Qed.

Lemma sorted_reverse_In (l : list A) (x : A) :
  In x (Py.sorted_reverse key l) <-> In x l.
Proof.
  split; apply Permutation_in;
    [| apply Permutation_sym]; apply sorted_reverse_perm.
Qed.

End SortedReverse.

Lemma precedes_score (c d : nat * Q) : precedes c d -> (snd d <= snd c)%Q.
Proof.
  intros [H | [H _]].
  - apply Qlt_le_weak, H.
  - rewrite H. apply Qle_refl.
Qed.

Lemma precedes_tie (c d : nat * Q) :
  precedes c d -> (snd c == snd d)%Q -> (fst c < fst d)%nat.
Proof.
  intros [H | [_ H]] He.
  - rewrite He in H. exfalso. exact (Qlt_irrefl _ H).
  - exact H.
Qed.

Lemma precedes_irrefl (c : nat * Q) : ~ precedes c c.
Proof.
  intros [H | [_ H]].
  - exact (Qlt_irrefl _ H).
  - lia.
Qed.

(** Inserting a candidate whose position is lower than every position of
    a ranked list keeps the list ranked. *)
Lemma insert_reverse_ranked (x : nat * Q) (s : list (nat * Q)) :
  StronglySorted precedes s ->
  Forall (fun y => (fst x < fst y)%nat) s ->
  StronglySorted precedes (Py.insert_reverse snd x s).
Proof.
  induction s as [| y s IH]; simpl; intros Hs Hpos.
  - constructor; constructor.
  - inversion Hs as [| ? ? Hs' Hy]; subst.
    inversion Hpos as [| ? ? Hxy Hpos']; subst.
    destruct (Qcompare (snd x) (snd y)) eqn:Hc.
    + apply Qeq_alt in Hc. constructor; [exact Hs |].
      constructor; [right; split; assumption |].
      rewrite Forall_forall in *. intros z Hz.
      destruct (Hy z Hz) as [Hlt | [Heq _]].
      * left. rewrite Hc. exact Hlt.
      * right. split; [rewrite Hc; exact Heq | apply Hpos', Hz].
    + apply Qlt_alt in Hc. constructor; [apply IH; assumption |].
      apply (Permutation_Forall (Permutation_sym (insert_reverse_perm _ snd x s))).
      constructor; [left; exact Hc | exact Hy].
    + apply Qgt_alt in Hc. constructor; [exact Hs |].
      constructor; [left; exact Hc |].
      rewrite Forall_forall in *. intros z Hz. left.
      apply Qle_lt_trans with (snd y); [| exact Hc].
      apply precedes_score, Hy, Hz.
Qed.

Lemma enumerate_from_lower (A : Type) (xs : list A) (n : nat) :
  Forall (fun y => (n <= fst y)%nat) (Py.enumerate_from n xs).
Proof.
  apply Forall_forall. intros [i x] H.
  apply enumerate_from_In in H. simpl. tauto.
Qed.

Lemma sorted_enumerate_from_ranked (xs : list Q) (n : nat) :
  StronglySorted precedes (Py.sorted_reverse snd (Py.enumerate_from n xs)).
Proof.
  revert n. induction xs as [| x xs IH]; intros n; simpl.
  - constructor.
  - apply insert_reverse_ranked; [apply IH |].
    apply (Permutation_Forall
             (Permutation_sym (sorted_reverse_perm _ snd _))).
    eapply Forall_impl; [| apply enumerate_from_lower].
    simpl. intros a Ha. lia.
Qed.

(** In a strongly sorted list an element at a lower rank is related to
    every element at a higher rank. *)
Lemma StronglySorted_nth (A : Type) (R : A -> A -> Prop) (l : list A) :
  StronglySorted R l ->
  forall (j k : nat) (a b : A),
    (j < k)%nat -> nth_error l j = Some a -> nth_error l k = Some b ->
    R a b.
Proof.
  induction 1 as [| x l Hl IH Hx]; intros j k a b Hjk Ha Hb.
  - destruct j; discriminate Ha.
  - destruct k as [| k]; [lia |]. simpl in Hb.
    destruct j as [| j]; simpl in Ha.
    + injection Ha as <-. rewrite Forall_forall in Hx.
      apply Hx. eapply nth_error_In, Hb.
    + apply (IH j k); [lia | assumption | assumption].
Qed.

(* ================================================================= *)
(** ** Title lookup *)

Lemma filter_first_match (rows : list Pd.row) (name : string) (p : nat)
  (r : Pd.row) :
  nth_error rows p = Some r ->
  Pd.title r = name ->
  (forall q r', (q < p)%nat -> nth_error rows q = Some r' ->
                Pd.title r' <> name) ->
  nth_error (filter (fun r0 => String.eqb (Pd.title r0) name) rows) 0 = Some r.
Proof.
  revert p. induction rows as [| r0 rows IH]; intros p Hp Ht Hlow.
  - destruct p; discriminate Hp.
  - destruct p as [| p]; simpl in Hp.
    + injection Hp as ->. simpl.
      rewrite (proj2 (String.eqb_eq _ _) Ht). reflexivity.
    + simpl.
      destruct (String.eqb_spec (Pd.title r0) name) as [He | _].
      * exfalso. apply (Hlow 0%nat r0); [lia | reflexivity | exact He].
      * apply (IH p); [exact Hp | exact Ht |].
        intros q r' Hq Hr'. apply (Hlow (S q) r'); [lia | exact Hr'].
Qed.

Lemma filter_no_match (rows : list Pd.row) (name : string) :
  (forall r, In r rows -> Pd.title r <> name) ->
  filter (fun r0 => String.eqb (Pd.title r0) name) rows = [].
Proof.
  induction rows as [| r0 rows IH]; intros H; simpl.
  - reflexivity.
  -
    destruct (String.eqb_spec (Pd.title r0) name) as [He | _].
    + exfalso. apply (H r0); [left; reflexivity | exact He].
    + apply IH. intros r Hr. apply H. right. exact Hr.
Qed.

(** The label [recommend_movie] resolves a title to is the label of the
    first row with that title. *)
Lemma resolve_first_row (movies : Pd.DataFrame) (name : string) (p : nat)
  (r : Pd.row) :
  nth_error (Pd.records movies) p = Some r ->
  Pd.title r = name ->
  (forall q r', (q < p)%nat -> nth_error (Pd.records movies) q = Some r' ->
                Pd.title r' <> name) ->
  resolve movies name = Return (Pd.label r).
Proof.
  intros Hp Ht Hlow. unfold resolve, Pd.index_at, Pd.select_title.
  cbn [Pd.records].
  rewrite (filter_first_match _ name p r Hp Ht Hlow). reflexivity.
Qed.

Lemma resolve_unknown (movies : Pd.DataFrame) (name : string) :
  ~ in_catalog movies name -> resolve movies name = Raise IndexError.
Proof.
  intros H. unfold resolve, Pd.index_at, Pd.select_title.
  cbn [Pd.records].
  rewrite filter_no_match; [reflexivity |].
  intros r Hr Ht. apply H. exists r. split; assumption.
Qed.

(** A title of the catalog has a lowest position. *)
Lemma in_catalog_first_position (movies : Pd.DataFrame) (name : string) :
  in_catalog movies name -> exists p, first_position movies name p.
Proof.
  unfold in_catalog, first_position.
  induction (Pd.records movies) as [| r0 rows IH]; intros [r [Hr Ht]].
  - destruct Hr.
  - destruct (String.eqb_spec (Pd.title r0) name) as [He | Hne].
    + exists 0%nat. split; [exists r0; split; [reflexivity | exact He] |].
      intros q r' Hq. lia.
    + destruct Hr as [-> | Hr]; [contradiction |].
      destruct IH as [p [[r1 [Hp Ht1]] Hlow]];
        [exists r; split; assumption |].
      exists (S p). split; [exists r1; split; assumption |].
      intros [| q] r' Hq Hr'; simpl in Hr'.
      * injection Hr' as <-. exact Hne.
      * apply (Hlow q r'); [lia | exact Hr'].
Qed.

Lemma first_position_bound (movies : Pd.DataFrame) (name : string)
  (p : nat) :
  first_position movies name p -> (p < catalog_size movies)%nat.
Proof.
  intros [[r [Hp _]] _]. apply nth_error_Some. rewrite Hp. discriminate.
Qed.

(** Under the default index the label of a row is its position. *)
Lemma RangeIndex_label (movies : Pd.DataFrame) (p : nat) (r : Pd.row) :
  RangeIndex movies ->
  nth_error (Pd.records movies) p = Some r ->
  Pd.label r = Z.of_nat p.
Proof.
  intros Hidx Hp.
  assert (Hlt : (p < catalog_size movies)%nat)
    by (apply nth_error_Some; rewrite Hp; discriminate).
  assert (H : nth_error (map Pd.label (Pd.records movies)) p
              = Some (Pd.label r))
    by (rewrite nth_error_map, Hp; reflexivity).
  rewrite Hidx, nth_error_map, nth_error_seq in H.
  apply Nat.ltb_lt in Hlt. rewrite Hlt in H. simpl in H.
  injection H as H. symmetry. exact H.
Qed.

Lemma resolve_first_position (movies : Pd.DataFrame) (name : string)
  (p : nat) :
  RangeIndex movies ->
  first_position movies name p ->
  resolve movies name = Return (Z.of_nat p).
Proof.
  intros Hidx [[r [Hp Ht]] Hlow].
  rewrite (resolve_first_row movies name p r Hp Ht Hlow).
  rewrite (RangeIndex_label movies p r Hidx Hp). reflexivity.
Qed.

(* ================================================================= *)
(** ** Row access and the loop body *)

Lemma getitem_position (a : Np.ndarray) (p : nat) :
  (p < Np.nrows a)%nat ->
  exists r, nth_error (Np.rows a) p = Some r
            /\ Np.getitem a (Z.of_nat p) = Return r.
Proof.
  intros Hp. unfold Np.getitem.
  destruct (Z.ltb_spec (Z.of_nat p) 0) as [H | _]; [lia |].
  destruct (Z.leb_spec 0 (Z.of_nat p)) as [_ | H]; [| lia].
  destruct (Z.ltb_spec (Z.of_nat p) (Z.of_nat (Np.nrows a))) as [_ | H];
    [| lia].
  simpl. rewrite Nat2Z.id.
  destruct (nth_error (Np.rows a) p) as [r |] eqn:Hr.
  - exists r. split; reflexivity.
  - apply nth_error_None in Hr. unfold Np.nrows in Hp. lia.
Qed.

Lemma rectangular_row (a : Np.ndarray) (p : nat) (r : list Q) :
  Np.rectangular a -> nth_error (Np.rows a) p = Some r ->
  length r = Np.ncols a.
Proof.
  intros Hrect Hr. unfold Np.rectangular in Hrect.
  rewrite Forall_forall in Hrect. apply Hrect. eapply nth_error_In, Hr.
Qed.

Lemma result_entry_row (movies : Pd.DataFrame) (i : nat) (score : Q)
  (r : Pd.row) :
  nth_error (Pd.records movies) i = Some r ->
  result_entry movies (i, score)
  = Return (Pd.title r, score, external_id movies r).
Proof.
  intros Hr. unfold result_entry, Pd.iloc, external_id. rewrite Hr. simpl.
  destruct (Pd.has_id movies).
  - destruct (Pd.id r); reflexivity.
  - reflexivity.
Qed.

Lemma result_entry_inv (movies : Pd.DataFrame) (c : nat * Q)
  (o : recommendation) :
  result_entry movies c = Return o ->
  exists r, nth_error (Pd.records movies) (fst c) = Some r
            /\ o = (Pd.title r, snd c, external_id movies r).
Proof.
  destruct c as [i score]. intros H. simpl.
  destruct (nth_error (Pd.records movies) i) as [r |] eqn:Hr.
  - exists r. split; [reflexivity |].
    rewrite (result_entry_row movies i score r Hr) in H.
    injection H as <-. reflexivity.
  - unfold result_entry, Pd.iloc in H. rewrite Hr in H. discriminate H.
Qed.

(* ================================================================= *)
(** ** The ranked candidates *)

Lemma ranked_perm (distances : list Q) :
  Permutation (ranked distances) (Py.enumerate distances).
Proof. apply sorted_reverse_perm. Qed.

Lemma ranked_length (distances : list Q) :
  length (ranked distances) = length distances.
Proof.
  unfold ranked. rewrite sorted_reverse_length.
  unfold Py.enumerate.
  rewrite <- (length_map fst), enumerate_from_fst. apply length_seq.
Qed.

(** A candidate pairs a position of the row with the score there. *)
Lemma ranked_In (distances : list Q) (i : nat) (score : Q) :
  In (i, score) (ranked distances) <-> nth_error distances i = Some score.
Proof.
  unfold ranked. rewrite sorted_reverse_In. unfold Py.enumerate.
  rewrite enumerate_from_In. rewrite Nat.sub_0_r.
  split; [tauto | intros H; split; [lia | exact H]].
Qed.

Lemma ranked_position (distances : list Q) (c : nat * Q) :
  In c (ranked distances) -> (fst c < length distances)%nat.
Proof.
  destruct c as [i score]. intros H. apply ranked_In in H.
  apply nth_error_Some. simpl. rewrite H. discriminate.
Qed.

Lemma ranked_NoDup (distances : list Q) : NoDup (ranked distances).
Proof.
  apply (NoDup_map_inv fst).
  apply (Permutation_NoDup
           (Permutation_sym (Permutation_map fst (ranked_perm distances)))).
  unfold Py.enumerate. rewrite enumerate_from_fst. apply seq_NoDup.
Qed.

Lemma ranked_sorted (distances : list Q) :
  StronglySorted precedes (ranked distances).
Proof. apply sorted_enumerate_from_ranked. Qed.

(** The entry at rank 0 is not among the entries at ranks [1 .. n]. *)
Lemma rank_0_dropped (distances : list Q) (n : nat) (c0 : nat * Q) :
  nth_error (ranked distances) 0 = Some c0 ->
  ~ In c0 (ranks_1_to n (ranked distances)).
Proof.
  intros H0 Hin. unfold ranks_1_to in Hin. apply In_firstn in Hin.
  pose proof (ranked_NoDup distances) as Hnd.
  destruct (ranked distances) as [| c l]; [discriminate H0 |].
  injection H0 as ->. apply NoDup_cons_iff in Hnd. tauto.
Qed.

Lemma ranks_1_to_nth (A : Type) (n k : nat) (l : list A) :
  nth_error (ranks_1_to n l) k
  = if (k <? n)%nat then nth_error l (S k) else None.
Proof.
  unfold ranks_1_to. rewrite nth_error_firstn, nth_error_skipn.
  reflexivity.
Qed.


(* ================================================================= *)
(** ** [recommend_movie] on a title of the catalog *)

Lemma Forall2_nth_r (A B : Type) (R : A -> B -> Prop) (l : list A)
  (l' : list B) :
  Forall2 R l l' ->
  forall (k : nat) (y : B), nth_error l' k = Some y ->
    exists x, nth_error l k = Some x /\ R x y.
Proof.
  induction 1 as [| x y l l' Hxy _ IH]; intros k y0 Hk.
  - destruct k; discriminate Hk.
  - destruct k as [| k]; simpl in Hk.
    + injection Hk as <-. exists x. split; [reflexivity | exact Hxy].
    + apply IH, Hk.
Qed.

Lemma Forall2_In_r (A B : Type) (R : A -> B -> Prop) (l : list A)
  (l' : list B) (y : B) :
  Forall2 R l l' -> In y l' -> exists x, In x l /\ R x y.
Proof.
  intros HF Hy. apply In_nth_error in Hy as [k Hk].
  destruct (Forall2_nth_r A B R l l' HF k y Hk) as [x [Hx HR]].
  exists x. split; [eapply nth_error_In, Hx | exact HR].
Qed.

(** Under the data-model invariant, a title at lowest position [p] is
    resolved to [p], row [p] of the matrix has one score per movie, and
    the loop over any slice of the ranking succeeds. *)
Lemma recommend_known (movies : Pd.DataFrame) (similarity : Np.ndarray)
  (name : string) (p : nat) :
  RangeIndex movies ->
  square_for movies similarity ->
  first_position movies name p ->
  exists distances,
    resolve movies name = Return (Z.of_nat p)
    /\ Np.getitem similarity (Z.of_nat p) = Return distances
    /\ length distances = catalog_size movies
    /\ forall top_n, exists out,
         recommend_movie movies similarity name top_n = Return out
         /\ Forall2 (fun c o => result_entry movies c = Return o)
                    (Py.slice (ranked distances) 1 (top_n + 1)) out.
Proof.
  intros Hidx [Hrect Hshape] Hfirst.
  unfold Np.shape in Hshape. injection Hshape as Hrows Hcols.
  pose proof (first_position_bound movies name p Hfirst) as Hp.
  destruct (getitem_position similarity p) as [distances [Hnth Hget]];
    [lia |].
  pose proof (rectangular_row similarity p distances Hrect Hnth) as Hlen.
  rewrite Hcols in Hlen.
  pose proof (resolve_first_position movies name p Hidx Hfirst) as Hres.
  exists distances. repeat split; try assumption.
  intros top_n. unfold recommend_movie. rewrite Hres, Hget. simpl.
  apply for_each_total. apply Forall_forall. intros [i score] Hc.
  apply slice_incl, ranked_position in Hc. simpl in Hc.
  destruct (nth_error (Pd.records movies) i) as [r |] eqn:Hr.
  - eexists. apply (result_entry_row movies i score r Hr).
  - apply nth_error_None in Hr. unfold catalog_size in Hlen. lia.
Qed.

(** The loop body, read as a relation between a candidate and a tuple. *)
Lemma result_entry_entry_at (movies : Pd.DataFrame) (distances : list Q)
  (c : nat * Q) (o : recommendation) :
  In c (ranked distances) ->
  result_entry movies c = Return o ->
  entry_at movies distances (fst c) o /\ score_of o = snd c.
Proof.
  intros Hc Ho. destruct c as [i score]. apply ranked_In in Hc.
  apply result_entry_inv in Ho as [r [Hr ->]]. simpl in *.
  split; [| reflexivity]. exists r. unfold score_of. simpl.
  repeat split; assumption.
Qed.

(* ================================================================= *)
(** * The claims *)

(** Discharges, on the example data, the side conditions of the theorems
    below: the default index, the square matrix, a title of the catalog,
    a bound on [top_n]. *)
Ltac on_example :=
  match goal with
  | |- RangeIndex _ => reflexivity
  | |- square_for _ _ =>
      split; [unfold Np.rectangular; repeat constructor | reflexivity]
  | |- in_catalog _ _ =>
      eexists; split; [left; reflexivity | reflexivity]
  | |- _ <= _ => discriminate
  | |- _ = _ => reflexivity
  end.



(** The entry left out is the one at rank 0, not the query: when [B]
    outranks [A] in the row of [A], [B] is left out and [A] is returned. *)
Example recommend_drops_rank_0 :
  recommend_movie example_movies skewed_similarity "A" 2
  = Return [("A"%string, (5 # 10)%Q, 862); ("C"%string, (2 # 10)%Q, 8844)].
Proof. reflexivity. Qed.

(** The example of the specification: [recommend("A", top_n=2)] yields
    [C] then [B]. *)
Example recommend_A_2 :
  recommend_movie example_movies example_similarity "A" 2
  = Return [("C"%string, (95 # 100)%Q, 8844); ("B"%string, (9 # 10)%Q, -1)].
Proof. reflexivity. Qed.

Lemma ranks_1_to_rank (A : Type) (n k : nat) (l : list A) (x : A) :
  nth_error (ranks_1_to n l) k = Some x -> nth_error l (S k) = Some x.
Proof.
  rewrite ranks_1_to_nth. destruct (k <? n)%nat; [tauto | discriminate].
Qed.

(** C2.  For a title of the catalog and [top_n >= 1], the result is in
    descending order of score, and of two result tuples with equal scores
    the one of the lower catalog position comes first.  Each tuple at rank
    [j] of the result is the tuple of the movie at the position [pj] the
    ranking selected there.  The catalog and the matrix are as the data
    model has them: default index, [N x N] matrix. *)
Theorem recommend_sorted_stable (movies : Pd.DataFrame)
  (similarity : Np.ndarray) (name : string) (top_n : Z) :
  RangeIndex movies ->
  square_for movies similarity ->
  in_catalog movies name ->
  1 <= top_n ->
  exists idx distances out,
    resolve movies name = Return idx
    /\ Np.getitem similarity idx = Return distances
    /\ recommend_movie movies similarity name top_n = Return out
    /\ forall j k oj ok,
         (j < k)%nat ->
         nth_error out j = Some oj ->
         nth_error out k = Some ok ->
         exists pj pk,
           nth_error (ranks_1_to (Z.to_nat top_n) (ranked distances)) j
           = Some (pj, score_of oj)
           /\ nth_error (ranks_1_to (Z.to_nat top_n) (ranked distances)) k
              = Some (pk, score_of ok)
           /\ entry_at movies distances pj oj
           /\ entry_at movies distances pk ok
           /\ (score_of ok <= score_of oj)%Q
           /\ ((score_of oj == score_of ok)%Q -> (pj < pk)%nat).
Proof.
  intros Hidx Hsq Hin Htop.
  destruct (in_catalog_first_position movies name Hin) as [p Hp].
  destruct (recommend_known movies similarity name p Hidx Hsq Hp)
    as [distances [Hres [Hget [Hlen Hrec]]]].
  destruct (Hrec top_n) as [out [Hout HF]].
  rewrite slice_from_1 in HF by lia.
  change (firstn (Z.to_nat top_n) (skipn 1 (ranked distances)))
    with (ranks_1_to (Z.to_nat top_n) (ranked distances)) in HF.
  exists (Z.of_nat p), distances, out.
  repeat split; try assumption.
  intros j k oj ok Hjk Hj Hk.
  destruct (Forall2_nth_r _ _ _ _ _ HF j oj Hj) as [[pj sj] [Hcj Hoj]].
  destruct (Forall2_nth_r _ _ _ _ _ HF k ok Hk) as [[pk sk] [Hck Hok]].
  pose proof (ranks_1_to_rank _ _ _ _ _ Hcj) as Hrj.
  pose proof (ranks_1_to_rank _ _ _ _ _ Hck) as Hrk.
  destruct (result_entry_entry_at movies distances (pj, sj) oj
              (nth_error_In _ _ Hrj) Hoj) as [Hej Hsj].
  destruct (result_entry_entry_at movies distances (pk, sk) ok
              (nth_error_In _ _ Hrk) Hok) as [Hek Hsk].
  simpl in Hej, Hek, Hsj, Hsk.
  assert (Hprec : precedes (pj, sj) (pk, sk)).
  { apply (StronglySorted_nth _ precedes (ranked distances)
             (ranked_sorted distances) (S j) (S k)); [lia | assumption..]. }
  exists pj, pk. rewrite Hsj, Hsk.
  repeat split; try assumption.
  - apply (precedes_score _ _ Hprec).
  - intros He. apply (precedes_tie _ _ Hprec He).
Qed.

Lemma recommend_sorted_stable_witness :
  RangeIndex example_movies
  /\ square_for example_movies example_similarity
  /\ in_catalog example_movies "B"
  /\ 1 <= 3
  /\ exists idx distances out,
       resolve example_movies "B" = Return idx
       /\ Np.getitem example_similarity idx = Return distances
       /\ recommend_movie example_movies example_similarity "B" 3
          = Return out
       /\ forall j k oj ok,
            (j < k)%nat ->
            nth_error out j = Some oj ->
            nth_error out k = Some ok ->
            exists pj pk,
              nth_error (ranks_1_to (Z.to_nat 3) (ranked distances)) j
              = Some (pj, score_of oj)
              /\ nth_error (ranks_1_to (Z.to_nat 3) (ranked distances)) k
                 = Some (pk, score_of ok)
              /\ entry_at example_movies distances pj oj
              /\ entry_at example_movies distances pk ok
              /\ (score_of ok <= score_of oj)%Q
              /\ ((score_of oj == score_of ok)%Q -> (pj < pk)%nat).
Proof.
  split; [on_example |].
  split; [on_example |].
  split; [eexists; split; [right; left; reflexivity | reflexivity] |].
  split; [on_example |].
  apply (recommend_sorted_stable example_movies example_similarity "B" 3);
    try on_example.
  eexists; split; [right; left; reflexivity | reflexivity].
Defined.

(** Row [B] has the score [0.5] at positions 2 and 3: the tie is listed
    in position order, [C] before [D]. *)
Example recommend_B_tie :
  recommend_movie example_movies example_similarity "B" 3
  = Return [("A"%string, (9 # 10)%Q, 862); ("C"%string, (5 # 10)%Q, 8844);
            ("D"%string, (5 # 10)%Q, 15602)].
Proof. reflexivity. Qed.

(** C4.  For a title that matches no catalog entry, [recommend_movie]
    returns the empty list, for every matrix and every [top_n]; it does
    not raise. *)
Theorem recommend_unknown_title (movies : Pd.DataFrame)
  (similarity : Np.ndarray) (name : string) (top_n : Z) :
  ~ in_catalog movies name ->
  recommend_movie movies similarity name top_n = Return [].
Proof.
  intros H. unfold recommend_movie.
  rewrite (resolve_unknown movies name H). reflexivity.
Qed.

Lemma recommend_unknown_title_witness :
  ~ in_catalog example_movies "Z"
  /\ recommend_movie example_movies example_similarity "Z" 5 = Return [].
Proof.
  assert (H : ~ in_catalog example_movies "Z").
  { intros [r [Hr Ht]]. simpl in Hr.
    destruct Hr as [<- | [<- | [<- | [<- | []]]]]; discriminate Ht. }
  split; [exact H |].
  exact (recommend_unknown_title example_movies example_similarity "Z" 5 H).
Defined.





(** The title [A] stands at positions 0 and 2; lookup reaches position 0.
    The comparison is case-sensitive. *)
Example resolve_duplicate_title :
  resolve duplicate_movies "A" = Return 0
  /\ resolve duplicate_movies "a" = Raise IndexError.
Proof. split; reflexivity. Qed.

(** What is resolved is the index label of the row.  It is the position
    under the default index only: in a frame whose labels are [2, 3] the
    title at position 1 resolves to 3. *)
Example resolve_returns_label :
  resolve relabelled_movies "B" = Return 3.
Proof. reflexivity. Qed.




(** C9.  [top_n] is not validated: for a title of the catalog,
    [recommend_movie] with [top_n = 0] returns the empty list, the slice
    [[1:1]] of the ranking.  The catalog and the matrix are as the data
    model has them, so that the row of the title exists. *)
Theorem recommend_top_0_empty (movies : Pd.DataFrame)
  (similarity : Np.ndarray) (name : string) :
  RangeIndex movies ->
  square_for movies similarity ->
  in_catalog movies name ->
  recommend_movie movies similarity name 0 = Return [].
Proof.
  intros Hidx Hsq Hin.
  destruct (in_catalog_first_position movies name Hin) as [p Hp].
  destruct (recommend_known movies similarity name p Hidx Hsq Hp)
    as [distances [_ [_ [_ Hrec]]]].
  destruct (Hrec 0) as [out [Hout HF]].
  rewrite slice_from_1 in HF by lia. simpl in HF.
  inversion HF; subst. exact Hout.
Qed.

Lemma recommend_top_0_empty_witness :
  RangeIndex example_movies
  /\ square_for example_movies example_similarity
  /\ in_catalog example_movies "A"
  /\ recommend_movie example_movies example_similarity "A" 0 = Return [].
Proof.
  repeat (split; [on_example |]).
  apply (recommend_top_0_empty example_movies example_similarity "A");
    on_example.
Defined.

(** C10.  Every tuple of a result is the tuple of a catalog row: its
    external identifier is the sentinel [-1] when the catalog has no
    ['id'] column or the row's id is missing, and the row's id converted
    to an integer otherwise.  It is an integer in every case, and the
    poster lookup answers the sentinel with the empty string without a
    request. *)
Theorem result_external_id (movies : Pd.DataFrame)
  (similarity : Np.ndarray) (name : string) (top_n : Z)
  (out : list recommendation) (o : recommendation) :
  recommend_movie movies similarity name top_n = Return out ->
  In o out ->
  exists p r,
    nth_error (Pd.records movies) p = Some r
    /\ title_of o = Pd.title r
    /\ (Pd.has_id movies = false \/ Pd.id r = Pd.NaN -> ext_of o = sentinel)
    /\ (forall q, Pd.has_id movies = true -> Pd.id r = Pd.Num q ->
                  ext_of o = Py.int q)
    /\ (ext_of o = sentinel ->
        forall net api_key log,
          fetch_poster net (ext_of o) api_key log = (Return EmptyString, log)).
Proof.
  intros Hrec Ho. unfold recommend_movie in Hrec.
  destruct (resolve movies name) as [idx | e].
  - apply bind_Return_inv in Hrec as [distances [_ Hloop]].
    apply for_each_Return_inv in Hloop.
    destruct (Forall2_In_r _ _ _ _ _ o Hloop Ho) as [c [_ Hc]].
    apply result_entry_inv in Hc as [r [Hr ->]].
    exists (fst c), r. unfold title_of, ext_of, external_id. simpl.
    repeat split.
    + exact Hr.
    + intros [Hno | Hna].
      * rewrite Hno. reflexivity.
      * rewrite Hna. destruct (Pd.has_id movies); reflexivity.
    + intros q Hid Hq. rewrite Hid, Hq. reflexivity.
    + intros Hs net api_key log. rewrite Hs. reflexivity.
  - injection Hrec as <-. destruct Ho.
Qed.

Lemma result_external_id_witness :
  recommend_movie example_movies example_similarity "A" 2
  = Return [("C"%string, (95 # 100)%Q, 8844); ("B"%string, (9 # 10)%Q, -1)]
  /\ In ("B"%string, (9 # 10)%Q, -1)
        [("C"%string, (95 # 100)%Q, 8844); ("B"%string, (9 # 10)%Q, -1)]
  /\ exists p r,
       nth_error (Pd.records example_movies) p = Some r
       /\ title_of ("B"%string, (9 # 10)%Q, -1) = Pd.title r
       /\ (Pd.has_id example_movies = false \/ Pd.id r = Pd.NaN ->
           ext_of ("B"%string, (9 # 10)%Q, -1) = sentinel)
       /\ (forall q, Pd.has_id example_movies = true ->
                     Pd.id r = Pd.Num q ->
                     ext_of ("B"%string, (9 # 10)%Q, -1) = Py.int q)
       /\ (ext_of ("B"%string, (9 # 10)%Q, -1) = sentinel ->
           forall net api_key log,
             fetch_poster net (ext_of ("B"%string, (9 # 10)%Q, -1))
                          api_key log
             = (Return EmptyString, log)).
Proof.
  split; [reflexivity |].
  split; [right; left; reflexivity |].
  apply (result_external_id example_movies example_similarity "A" 2
           [("C"%string, (95 # 100)%Q, 8844); ("B"%string, (9 # 10)%Q, -1)]
           ("B"%string, (9 # 10)%Q, -1)).
  - reflexivity.
  - right; left; reflexivity.
Defined.

(* ================================================================= *)
(** ** Loading *)

Lemma concatenate_three (p0 p1 p2 : Np.ndarray) :
  Np.ncols p0 = Np.ncols p1 ->
  Np.ncols p1 = Np.ncols p2 ->
  Np.concatenate [p0; p1; p2]
  = Return (Np.mk_ndarray (Np.ncols p0)
              (Np.rows p0 ++ Np.rows p1 ++ Np.rows p2)).
Proof.
  intros H01 H12. unfold Np.concatenate, Np.concatenate_from, Np.concat2.
  rewrite <- H01, Nat.eqb_refl. simpl.
  rewrite H01, <- H12, Nat.eqb_refl. simpl.
  rewrite <- app_assoc. reflexivity.
Qed.

Lemma concatenate_three_mismatch (p0 p1 p2 : Np.ndarray) :
  ~ (Np.ncols p0 = Np.ncols p1 /\ Np.ncols p1 = Np.ncols p2) ->
  Np.concatenate [p0; p1; p2] = Raise ValueError.
Proof.
  intros H. unfold Np.concatenate, Np.concatenate_from, Np.concat2.
  destruct (Nat.eqb_spec (Np.ncols p0) (Np.ncols p1)) as [H01 | _];
    [| reflexivity].
  simpl. destruct (Nat.eqb_spec (Np.ncols p0) (Np.ncols p2)) as [H02 | _];
    [| reflexivity].
  exfalso. apply H. split; congruence.
Qed.

(** The three example chunks load into the example matrix. *)
Example load_data_example :
  load_data example_files = Return (example_movies, example_similarity).
Proof. reflexivity. Qed.

(** C3, counterexample.  With a last chunk that holds no row the stitched
    matrix is [3 x 4] for a catalog of 4 movies: neither square nor of the
    catalog size, and [load_data] returns it. *)
Lemma load_data_no_shape_check : ~ fails_on_mismatch short_files.
Proof.
  unfold fails_on_mismatch. intros H.
  destruct H as [e He].
  - left. simpl. discriminate.
  - discriminate He.
Qed.

(** C3, as the code has it.  [load_data] checks neither squareness nor
    the catalog size.  When the three chunks have one column count it
    returns the catalog and the matrix made of exactly the rows of the
    chunks, in order: no row is dropped and none is added, whatever the
    catalog size is.  It fails, with numpy's [ValueError], exactly when
    the column counts of the chunks differ. *)
Theorem load_data_concatenates (files : pickles) :
  (Np.ncols (similarity_part_0 files) = Np.ncols (similarity_part_1 files)
   /\ Np.ncols (similarity_part_1 files) = Np.ncols (similarity_part_2 files)
   -> load_data files
      = Return (movies_pkl files,
                Np.mk_ndarray (Np.ncols (similarity_part_0 files))
                  (Np.rows (similarity_part_0 files)
                   ++ Np.rows (similarity_part_1 files)
                   ++ Np.rows (similarity_part_2 files))))
  /\ (~ (Np.ncols (similarity_part_0 files)
         = Np.ncols (similarity_part_1 files)
         /\ Np.ncols (similarity_part_1 files)
            = Np.ncols (similarity_part_2 files))
      -> load_data files = Raise ValueError).
Proof.
  split.
  - intros [H01 H12]. unfold load_data.
    rewrite (concatenate_three _ _ _ H01 H12). reflexivity.
  - intros H. unfold load_data.
    rewrite (concatenate_three_mismatch _ _ _ H). reflexivity.
Qed.

Lemma load_data_concatenates_witness :
  load_data short_files
  = Return (example_movies,
            Np.mk_ndarray 4 (Np.rows example_part_0 ++ Np.rows example_part_1
                             ++ []))
  /\ load_data (mk_pickles example_movies example_part_0
                           (Np.mk_ndarray 3 []) example_part_2)
     = Raise ValueError.
Proof.
  split.
  - apply (proj1 (load_data_concatenates short_files)).
    split; reflexivity.
  - apply (proj2 (load_data_concatenates
                    (mk_pickles example_movies example_part_0
                                (Np.mk_ndarray 3 []) example_part_2))).
    intros [H _]. discriminate H.
Defined.

(** The mismatch that loading lets through shows later: the short matrix
    has no row for [D]. *)
Example recommend_on_short_matrix :
  recommend_movie example_movies
    (Np.mk_ndarray 4 (Np.rows example_part_0 ++ Np.rows example_part_1))
    "D" 2
  = Raise IndexError.
Proof. reflexivity. Qed.

Lemma getitem_nth (a : Np.ndarray) (p : nat) (r : list Q) :
  nth_error (Np.rows a) p = Some r ->
  Np.getitem a (Z.of_nat p) = Return r.
Proof.
  intros Hr.
  assert (Hp : (p < Np.nrows a)%nat)
    by (apply nth_error_Some; rewrite Hr; discriminate).
  destruct (getitem_position a p Hp) as [r' [Hr' Hget]].
  rewrite Hget. congruence.
Qed.

Lemma getitem_same_row (a b : Np.ndarray) (i j : nat) :
  (j < Np.nrows b)%nat ->
  nth_error (Np.rows a) i = nth_error (Np.rows b) j ->
  Np.getitem a (Z.of_nat i) = Np.getitem b (Z.of_nat j).
Proof.
  intros Hj Heq.
  destruct (getitem_position b j Hj) as [r [Hr Hget]].
  rewrite Hget. apply getitem_nth. rewrite Heq. exact Hr.
Qed.

(** C5.  Three chunks of shapes [a x N], [b x N], [c x N] are stitched
    into a matrix of shape [(a+b+c) x N]; row [i] of it is row [i] of the
    first chunk for [i < a], row [i - a] of the second for
    [a <= i < a + b], row [i - a - b] of the third for
    [a + b <= i < a + b + c].  The result is the one matrix that has the
    rows of the chunks in order, and it is what [load_data] returns. *)
Theorem concatenate_three_chunks (p0 p1 p2 : Np.ndarray) (a b c N : nat) :
  Np.shape p0 = (a, N) ->
  Np.shape p1 = (b, N) ->
  Np.shape p2 = (c, N) ->
  exists s,
    Np.concatenate [p0; p1; p2] = Return s
    /\ Np.shape s = ((a + b + c)%nat, N)
    /\ s = Np.mk_ndarray N (Np.rows p0 ++ Np.rows p1 ++ Np.rows p2)
    /\ (forall movies,
          load_data (mk_pickles movies p0 p1 p2) = Return (movies, s))
    /\ forall i : nat,
         ((i < a)%nat ->
          Np.getitem s (Z.of_nat i) = Np.getitem p0 (Z.of_nat i))
         /\ ((a <= i < a + b)%nat ->
             Np.getitem s (Z.of_nat i) = Np.getitem p1 (Z.of_nat (i - a)))
         /\ ((a + b <= i < a + b + c)%nat ->
             Np.getitem s (Z.of_nat i)
             = Np.getitem p2 (Z.of_nat (i - a - b))).
Proof.
  unfold Np.shape, Np.nrows. intros H0 H1 H2.
  injection H0 as Ha HN0. injection H1 as Hb HN1. injection H2 as Hc HN2.
  exists (Np.mk_ndarray N (Np.rows p0 ++ Np.rows p1 ++ Np.rows p2)).
  assert (Hcat : Np.concatenate [p0; p1; p2]
                 = Return (Np.mk_ndarray N
                             (Np.rows p0 ++ Np.rows p1 ++ Np.rows p2))).
  { rewrite concatenate_three by congruence. rewrite HN0. reflexivity. }
  split; [exact Hcat |].
  split; [simpl; rewrite !length_app; f_equal; lia |].
  split; [reflexivity |].
  split; [intros movies; unfold load_data; simpl;
          simpl in Hcat; rewrite Hcat; reflexivity |].
  intros i. repeat split; intros Hi.
  - apply getitem_same_row; [unfold Np.nrows; lia |]. simpl.
    apply nth_error_app1. lia.
  - apply getitem_same_row; [unfold Np.nrows; lia |]. simpl.
    rewrite nth_error_app2 by lia. rewrite Ha.
    apply nth_error_app1. lia.
  - apply getitem_same_row; [unfold Np.nrows; lia |]. simpl.
    rewrite nth_error_app2 by lia. rewrite nth_error_app2 by lia.
    f_equal. lia.
Qed.

Lemma concatenate_three_chunks_witness :
  Np.shape example_part_0 = (2%nat, 4%nat)
  /\ Np.shape example_part_1 = (1%nat, 4%nat)
  /\ Np.shape example_part_2 = (1%nat, 4%nat)
  /\ exists s,
       Np.concatenate [example_part_0; example_part_1; example_part_2]
       = Return s
       /\ Np.shape s = ((2 + 1 + 1)%nat, 4%nat)
       /\ s = Np.mk_ndarray 4 (Np.rows example_part_0
                               ++ Np.rows example_part_1
                               ++ Np.rows example_part_2)
       /\ (forall movies,
             load_data (mk_pickles movies example_part_0 example_part_1
                                   example_part_2)
             = Return (movies, s))
       /\ forall i : nat,
            ((i < 2)%nat ->
             Np.getitem s (Z.of_nat i)
             = Np.getitem example_part_0 (Z.of_nat i))
            /\ ((2 <= i < 2 + 1)%nat ->
                Np.getitem s (Z.of_nat i)
                = Np.getitem example_part_1 (Z.of_nat (i - 2)))
            /\ ((2 + 1 <= i < 2 + 1 + 1)%nat ->
                Np.getitem s (Z.of_nat i)
                = Np.getitem example_part_2 (Z.of_nat (i - 2 - 1))).
Proof.
  repeat (split; [reflexivity |]).
  apply (concatenate_three_chunks example_part_0 example_part_1
           example_part_2 2 1 1 4); reflexivity.
Defined.

(* ================================================================= *)
(** ** The poster lookup *)

(** [fetch_poster] in closed form: no request for a negative id or an
    empty key; otherwise one request, and the image URL only for a 200
    answer whose JSON object holds a non-empty string under
    [poster_path]. *)
Lemma fetch_poster_cases (net : Requests.network) (tmdb_id : Z)
  (api_key : string) (log : list string) :
  fetch_poster net tmdb_id api_key log
  = if (tmdb_id <? 0) || String.eqb api_key EmptyString
    then (Return EmptyString, log)
    else
      (Return
         match net (poster_url tmdb_id api_key) with
         | Return resp =>
             if Requests.status_code resp =? 200 then
               match Requests.json resp with
               | Return (Requests.VDict d) =>
                   match Requests.lookup "poster_path" d with
                   | Some (Requests.VStr path) =>
                       if String.eqb path EmptyString then EmptyString
                       else String.append image_base path
                   | _ => EmptyString
                   end
               | _ => EmptyString
               end
             else EmptyString
         | Raise _ => EmptyString
         end,
       log ++ [poster_url tmdb_id api_key]).
Proof.
  unfold fetch_poster.
  destruct ((tmdb_id <? 0) || String.eqb api_key EmptyString);
    [reflexivity |].
  unfold io_try, io_bind, requests_get, io_lift, io_ret.
  destruct (net (poster_url tmdb_id api_key)) as [resp | e];
    [| reflexivity].
  destruct (Requests.status_code resp =? 200); [| reflexivity].
  destruct (Requests.json resp) as [data | e]; [| reflexivity].
  destruct data as [| b | n | q | s | l | d]; try reflexivity.
  simpl. destruct (Requests.lookup "poster_path" d) as [v |];
    [| reflexivity].
  destruct v as [| b | n | q | s | l | d']; simpl; try reflexivity.
  - destruct b; reflexivity.
  - destruct (n =? 0); reflexivity.
  - destruct (Qeq_bool q 0); reflexivity.
  - destruct (String.eqb s EmptyString); reflexivity.
  - destruct l; reflexivity.
  - destruct d'; reflexivity.
Qed.

(** C7.  [fetch_poster] always returns a string, never an exception.  For
    the sentinel id [-1], or an empty key, it returns the empty string
    and the request log is unchanged: no network call.  It returns the
    empty string when the request fails in transport, when the status is
    not 200, and when the JSON object has no [poster_path] or a null one.
    A non-empty result is the image URL of a 200 answer that holds a
    non-empty [poster_path] string, after exactly one request. *)
Theorem fetch_poster_fails_soft (net : Requests.network) (tmdb_id : Z)
  (api_key : string) (log : list string) :
  (exists s log',
     fetch_poster net tmdb_id api_key log = (Return s, log'))
  /\ (tmdb_id = sentinel \/ api_key = EmptyString ->
      fetch_poster net tmdb_id api_key log = (Return EmptyString, log))
  /\ (forall e,
        net (poster_url tmdb_id api_key) = Raise e ->
        fst (fetch_poster net tmdb_id api_key log) = Return EmptyString)
  /\ (forall resp,
        net (poster_url tmdb_id api_key) = Return resp ->
        Requests.status_code resp <> 200 ->
        fst (fetch_poster net tmdb_id api_key log) = Return EmptyString)
  /\ (forall resp d,
        net (poster_url tmdb_id api_key) = Return resp ->
        Requests.json resp = Return (Requests.VDict d) ->
        Requests.lookup "poster_path" d = None
        \/ Requests.lookup "poster_path" d = Some Requests.VNone ->
        fst (fetch_poster net tmdb_id api_key log) = Return EmptyString)
  /\ (forall s,
        fst (fetch_poster net tmdb_id api_key log) = Return s ->
        s <> EmptyString ->
        exists resp d path,
          0 <= tmdb_id
          /\ api_key <> EmptyString
          /\ net (poster_url tmdb_id api_key) = Return resp
          /\ Requests.status_code resp = 200
          /\ Requests.json resp = Return (Requests.VDict d)
          /\ Requests.lookup "poster_path" d = Some (Requests.VStr path)
          /\ path <> EmptyString
          /\ s = String.append image_base path
          /\ snd (fetch_poster net tmdb_id api_key log)
             = log ++ [poster_url tmdb_id api_key]).
Proof.
  rewrite fetch_poster_cases.
  destruct (Z.ltb_spec tmdb_id 0) as [Hneg | Hpos];
    [| destruct (String.eqb_spec api_key EmptyString) as [Hkey | Hkey]];
    simpl.
  - repeat split; try reflexivity.
    + eexists _, _. reflexivity.
    + intros s Hs Hne. injection Hs as <-. contradiction.
  - repeat split; try reflexivity.
    + eexists _, _. reflexivity.
    + intros s Hs Hne. injection Hs as <-. contradiction.
  - repeat split.
    + eexists _, _. reflexivity.
    + intros [Hs | Hk]; [unfold sentinel in Hs; lia | contradiction].
    + intros e He. rewrite He. reflexivity.
    + intros resp Hresp Hst. rewrite Hresp.
      apply Z.eqb_neq in Hst. rewrite Hst. reflexivity.
    + intros resp d Hresp Hjson Hpath. rewrite Hresp, Hjson.
      destruct (Requests.status_code resp =? 200); [| reflexivity].
      destruct Hpath as [-> | ->]; reflexivity.
    + intros s Hs Hne. injection Hs as Hs.
      destruct (net (poster_url tmdb_id api_key)) as [resp | e] eqn:Hnet;
        [| congruence].
      destruct (Z.eqb_spec (Requests.status_code resp) 200) as [Hst | _];
        [| congruence].
      destruct (Requests.json resp) as [data | e] eqn:Hjson;
        [| congruence].
      destruct data as [| b | n | q | s0 | l | d]; try congruence.
      destruct (Requests.lookup "poster_path" d) as [v |] eqn:Hlook;
        [| congruence].
      destruct v as [| b | n | q | path | l | d']; try congruence.
      destruct (String.eqb_spec path EmptyString) as [He | Hpath];
        [congruence |].
      exists resp, d, path. repeat split; try assumption; try reflexivity.
      symmetry. exact Hs.
Qed.

Lemma fetch_poster_fails_soft_witness :
  fetch_poster net_ok sentinel "key" [] = (Return EmptyString, [])
  /\ fetch_poster net_ok 862 EmptyString [] = (Return EmptyString, [])
  /\ fst (fetch_poster net_down 862 "key" []) = Return EmptyString
  /\ fst (fetch_poster net_not_found 862 "key" []) = Return EmptyString
  /\ fst (fetch_poster net_no_path 862 "key" []) = Return EmptyString.
Proof.
  split; [| split; [| split; [| split]]].
  - destruct (fetch_poster_fails_soft net_ok sentinel "key" [])
      as [_ [H _]].
    apply H. left. reflexivity.
  - destruct (fetch_poster_fails_soft net_ok 862 EmptyString [])
      as [_ [H _]].
    apply H. right. reflexivity.
  - destruct (fetch_poster_fails_soft net_down 862 "key" [])
      as [_ [_ [H _]]].
    apply (H RequestException). reflexivity.
  - destruct (fetch_poster_fails_soft net_not_found 862 "key" [])
      as [_ [_ [_ [H _]]]].
    apply (H (Requests.mk_response 404 (Return (Requests.VDict [])))).
    + reflexivity.
    + discriminate.
  - destruct (fetch_poster_fails_soft net_no_path 862 "key" [])
      as [_ [_ [_ [_ [H _]]]]].
    apply (H (Requests.mk_response 200
                (Return (Requests.VDict [("id"%string, Requests.VInt 862)])))
             [("id"%string, Requests.VInt 862)]).
    + reflexivity.
    + reflexivity.
    + left. reflexivity.
Defined.

(** A reachable endpoint with a poster: one request, and the image URL. *)
Example fetch_poster_ok :
  fetch_poster net_ok 862 "key" []
  = (Return "https://image.tmdb.org/t/p/w500/a.jpg"%string,
     ["https://api.themoviedb.org/3/movie/862?api_key=key&language=en-US"%string]).
Proof. reflexivity. Qed.

(* ================================================================= *)
(** * Further properties of the code *)

(* ================================================================= *)
(** ** The engine outside the claims *)

Lemma for_each_firstn (A B : Type) (f : A -> result B) (k : nat)
  (xs : list A) (ys : list B) :
  for_each f xs = Return ys ->
  for_each f (firstn k xs) = Return (firstn k ys).
Proof.
  revert xs ys. induction k as [| k IH]; intros xs ys H.
  - reflexivity.
  - destruct xs as [| x xs]; simpl in H.
    + injection H as <-. reflexivity.
    + apply bind_Return_inv in H as [y [Hy H]].
      apply bind_Return_inv in H as [ys' [Hys H]].
      injection H as <-. simpl. rewrite Hy. simpl.
      rewrite (IH xs ys' Hys). reflexivity.
Qed.

(** X1.  Asking for fewer recommendations gives a prefix: when
    [recommend_movie] returns [out] for [m], it returns the first [n]
    elements of [out] for every [0 <= n <= m]. *)
Theorem recommend_prefix (movies : Pd.DataFrame) (similarity : Np.ndarray)
  (name : string) (n m : Z) (out : list recommendation) :
  0 <= n <= m ->
  recommend_movie movies similarity name m = Return out ->
  recommend_movie movies similarity name n
  = Return (firstn (Z.to_nat n) out).
Proof.
  intros Hnm H. unfold recommend_movie in *.
  destruct (resolve movies name) as [idx | e].
  - destruct (Np.getitem similarity idx) as [distances | e];
      [| discriminate H].
    simpl in *. rewrite slice_from_1 in * by lia.
    replace (firstn (Z.to_nat n) (skipn 1 (ranked distances)))
      with (firstn (Z.to_nat n)
              (firstn (Z.to_nat m) (skipn 1 (ranked distances)))).
    + apply for_each_firstn, H.
    + rewrite firstn_firstn. f_equal. lia.
  - injection H as <-. rewrite firstn_nil. reflexivity.
Qed.

Lemma recommend_prefix_witness :
  0 <= 1 <= 2
  /\ recommend_movie example_movies example_similarity "A" 2
     = Return [("C"%string, (95 # 100)%Q, 8844);
               ("B"%string, (9 # 10)%Q, -1)]
  /\ recommend_movie example_movies example_similarity "A" 1
     = Return (firstn (Z.to_nat 1)
                 [("C"%string, (95 # 100)%Q, 8844);
                  ("B"%string, (9 # 10)%Q, -1)]).
Proof.
  split; [lia |]. split; [reflexivity |].
  apply (recommend_prefix example_movies example_similarity "A" 1 2).
  - lia.
  - reflexivity.
Defined.

(** For a negative stop the slice counts from the end: [xs[1:0]] is empty
    and [xs[1:t+1]] for [t <= -2] keeps [len(xs) + t] elements after the
    first. *)
Lemma slice_from_1_negative (A : Type) (xs : list A) (t : Z) :
  t < 0 ->
  Py.slice xs 1 (t + 1)
  = firstn (if t =? -1 then 0%nat
            else Z.to_nat (Z.of_nat (length xs) + t))
           (skipn 1 xs).
Proof.
  intros Ht. unfold Py.slice, Py.adjust.
  destruct (Z.ltb_spec 1 0) as [H | _]; [lia |].
  destruct xs as [| x xs].
  - simpl. rewrite !firstn_nil. reflexivity.
  - assert (Hlen : Z.of_nat (length (x :: xs)) = Z.of_nat (length xs) + 1)
      by (simpl length; lia).
    rewrite Hlen.
    replace (Z.min 1 (Z.of_nat (length xs) + 1)) with 1 by lia.
    change (Z.to_nat 1) with 1%nat.
    destruct (Z.eqb_spec t (-1)) as [-> | Hne].
    + change (-1 + 1 <? 0) with false. cbv iota.
      replace (Z.min (-1 + 1) (Z.of_nat (length xs) + 1)) with 0 by lia.
      reflexivity.
    + destruct (Z.ltb_spec (t + 1) 0) as [_ | H]; [| lia].
      f_equal. lia.
Qed.

(** X2.  A negative [top_n] is not rejected either.  For a title of the
    catalog, [top_n = -1] gives the empty list, and [top_n <= -2] gives
    the candidates of ranks [1 .. N + top_n]: all but the first and the
    last [-top_n - 1]. *)
Theorem recommend_negative_top_n (movies : Pd.DataFrame)
  (similarity : Np.ndarray) (name : string) (top_n : Z) :
  RangeIndex movies ->
  square_for movies similarity ->
  in_catalog movies name ->
  top_n < 0 ->
  exists idx distances out,
    resolve movies name = Return idx
    /\ Np.getitem similarity idx = Return distances
    /\ recommend_movie movies similarity name top_n = Return out
    /\ Forall2 (fun c o => result_entry movies c = Return o)
         (ranks_1_to
            (if top_n =? -1 then 0%nat
             else Z.to_nat (Z.of_nat (catalog_size movies) + top_n))
            (ranked distances))
         out
    /\ (top_n = -1 -> out = [])
    /\ (top_n <= -2 ->
        length out = Z.to_nat (Z.of_nat (catalog_size movies) + top_n)).
Proof.
  intros Hidx Hsq Hin Htop.
  destruct (in_catalog_first_position movies name Hin) as [p Hp].
  destruct (recommend_known movies similarity name p Hidx Hsq Hp)
    as [distances [Hres [Hget [Hlen Hrec]]]].
  destruct (Hrec top_n) as [out [Hout HF]].
  rewrite slice_from_1_negative in HF by lia.
  rewrite ranked_length, Hlen in HF.
  exists (Z.of_nat p), distances, out.
  repeat split; try assumption.
  - intros ->. simpl in HF. inversion HF. reflexivity.
  - intros Hle. rewrite <- (Forall2_length HF).
    destruct (Z.eqb_spec top_n (-1)) as [-> | _]; [lia |].
    rewrite length_firstn, length_skipn, ranked_length, Hlen. lia.
Qed.

Lemma recommend_negative_top_n_witness :
  RangeIndex example_movies
  /\ square_for example_movies example_similarity
  /\ in_catalog example_movies "A"
  /\ -2 < 0
  /\ exists idx distances out,
       resolve example_movies "A" = Return idx
       /\ Np.getitem example_similarity idx = Return distances
       /\ recommend_movie example_movies example_similarity "A" (-2)
          = Return out
       /\ Forall2 (fun c o => result_entry example_movies c = Return o)
            (ranks_1_to
               (if -2 =? -1 then 0%nat
                else Z.to_nat (Z.of_nat (catalog_size example_movies) + -2))
               (ranked distances))
            out
       /\ (-2 = -1 -> out = [])
       /\ (-2 <= -2 ->
           length out
           = Z.to_nat (Z.of_nat (catalog_size example_movies) + -2)).
Proof.
  split; [on_example |].
  split; [on_example |].
  split; [on_example |].
  split; [reflexivity |].
  apply (recommend_negative_top_n example_movies example_similarity "A"
           (-2)); try on_example.
  reflexivity.
Defined.

(** X3.  The row access is outside the [try]: when the resolved index
    label is not in [-rows .. rows-1] of the matrix, [recommend_movie]
    raises [IndexError], for every [top_n]. *)
Theorem recommend_index_out_of_range (movies : Pd.DataFrame)
  (similarity : Np.ndarray) (name : string) (top_n idx : Z) :
  resolve movies name = Return idx ->
  idx < - Z.of_nat (Np.nrows similarity)
  \/ Z.of_nat (Np.nrows similarity) <= idx ->
  recommend_movie movies similarity name top_n = Raise IndexError.
Proof.
  intros Hres Hout. unfold recommend_movie. rewrite Hres.
  unfold Np.getitem.
  destruct (Z.ltb_spec idx 0) as [Hneg | Hpos].
  - destruct (Z.leb_spec 0 (idx + Z.of_nat (Np.nrows similarity)))
      as [H | _]; [lia | reflexivity].
  - destruct (Z.leb_spec 0 idx) as [_ | H]; [| lia].
    destruct (Z.ltb_spec idx (Z.of_nat (Np.nrows similarity)))
      as [H | _]; [lia | reflexivity].
Qed.

Lemma recommend_index_out_of_range_witness :
  resolve example_movies "D" = Return 3
  /\ (3 < - Z.of_nat (Np.nrows (Np.mk_ndarray 4 (Np.rows example_part_0)))
      \/ Z.of_nat (Np.nrows (Np.mk_ndarray 4 (Np.rows example_part_0))) <= 3)
  /\ recommend_movie example_movies
       (Np.mk_ndarray 4 (Np.rows example_part_0)) "D" 5
     = Raise IndexError.
Proof.
  split; [reflexivity |].
  split; [right; discriminate |].
  apply (recommend_index_out_of_range example_movies
           (Np.mk_ndarray 4 (Np.rows example_part_0)) "D" 5 3).
  - reflexivity.
  - right. discriminate.
Defined.

Lemma result_entry_Raise (movies : Pd.DataFrame) (c : nat * Q) (e : exn) :
  result_entry movies c = Raise e ->
  e = IndexError /\ (catalog_size movies <= fst c)%nat.
Proof.
  destruct c as [i score]. intros H. simpl.
  destruct (nth_error (Pd.records movies) i) as [r |] eqn:Hr.
  - rewrite (result_entry_row movies i score r Hr) in H. discriminate H.
  - unfold result_entry, Pd.iloc in H. rewrite Hr in H. simpl in H.
    injection H as <-. split; [reflexivity |].
    apply nth_error_None in Hr. exact Hr.
Qed.

Lemma for_each_Raise (A B : Type) (f : A -> result B) (xs : list A)
  (x : A) (e : exn) :
  In x xs -> f x = Raise e ->
  exists x' e', In x' xs /\ f x' = Raise e' /\ for_each f xs = Raise e'.
Proof.
  induction xs as [| y xs IH]; intros Hin Hx; [destruct Hin |].
  simpl. destruct (f y) as [b | e0] eqn:Hy.
  - destruct Hin as [-> | Hin]; [congruence |].
    destruct (IH Hin Hx) as [x' [e' [Hx' [Hfx' Hloop]]]].
    exists x', e'. simpl. rewrite Hloop.
    repeat split; [right; exact Hx' | exact Hfx'].
  - exists y, e0. repeat split; [left; reflexivity | exact Hy].
Qed.

(** X4.  The loop reads the catalog by position: when a selected
    candidate lies beyond the last catalog row (a matrix row longer than
    the catalog), [recommend_movie] raises [IndexError] and returns no
    partial list. *)
Theorem recommend_position_beyond_catalog (movies : Pd.DataFrame)
  (similarity : Np.ndarray) (name : string) (top_n idx : Z)
  (distances : list Q) (c : nat * Q) :
  resolve movies name = Return idx ->
  Np.getitem similarity idx = Return distances ->
  In c (Py.slice (ranked distances) 1 (top_n + 1)) ->
  (catalog_size movies <= fst c)%nat ->
  recommend_movie movies similarity name top_n = Raise IndexError.
Proof.
  intros Hres Hget Hc Hbeyond. unfold recommend_movie.
  rewrite Hres, Hget. simpl.
  assert (Hraise : result_entry movies c = Raise IndexError).
  { destruct c as [i score]. unfold result_entry, Pd.iloc.
    destruct (nth_error (Pd.records movies) i) as [r |] eqn:Hr;
      [| reflexivity].
    exfalso. simpl in Hbeyond.
    assert (i < catalog_size movies)%nat
      by (apply nth_error_Some; rewrite Hr; discriminate).
    lia. }
  destruct (for_each_Raise _ _ (result_entry movies) _ c IndexError
              Hc Hraise) as [c' [e' [_ [Hc' Hloop]]]].
  apply result_entry_Raise in Hc' as [-> _]. exact Hloop.
Qed.

Lemma recommend_position_beyond_catalog_witness :
  resolve duplicate_movies "B" = Return 1
  /\ Np.getitem example_similarity 1
     = Return [9 # 10; 1; 5 # 10; 5 # 10]%Q
  /\ In (3%nat, (5 # 10)%Q)
        (Py.slice (ranked [9 # 10; 1; 5 # 10; 5 # 10]%Q) 1 (3 + 1))
  /\ (catalog_size duplicate_movies <= fst (3%nat, (5 # 10)%Q))%nat
  /\ recommend_movie duplicate_movies example_similarity "B" 3
     = Raise IndexError.
Proof.
  split; [reflexivity |].
  split; [reflexivity |].
  split; [right; right; left; reflexivity |].
  split; [unfold catalog_size; simpl; lia |].
  apply (recommend_position_beyond_catalog duplicate_movies
           example_similarity "B" 3 1 [9 # 10; 1; 5 # 10; 5 # 10]%Q
           (3%nat, (5 # 10)%Q)).
  - reflexivity.
  - reflexivity.
  - right; right; left; reflexivity.
  - unfold catalog_size; simpl; lia.
Defined.

Lemma Forall2_In_l (A B : Type) (R : A -> B -> Prop) (l : list A)
  (l' : list B) (x : A) :
  Forall2 R l l' -> In x l -> exists y, In y l' /\ R x y.
Proof.
  induction 1 as [| a b l l' Hab _ IH]; intros Hx; [destruct Hx |].
  destruct Hx as [-> | Hx].
  - exists b. split; [left; reflexivity | exact Hab].
  - destruct (IH Hx) as [y [Hy HR]]. exists y.
    split; [right; exact Hy | exact HR].
Qed.

Lemma Forall2_map_fst (A B C : Type) (R : A * C -> B -> Prop)
  (Q : A -> B -> Prop) (l : list (A * C)) (l' : list B) :
  Forall2 R l l' ->
  (forall c o, In c l -> R c o -> Q (fst c) o) ->
  Forall2 Q (map fst l) l'.
Proof.
  induction 1 as [| c o l l' Hco _ IH]; intros HQ; simpl.
  - constructor.
  - constructor.
    + apply HQ; [left; reflexivity | exact Hco].
    + apply IH. intros c' o' Hc'. apply HQ. right. exact Hc'.
Qed.

Lemma NoDup_firstn (A : Type) (n : nat) (l : list A) :
  NoDup l -> NoDup (firstn n l).
Proof.
  intros H. rewrite <- (firstn_skipn n l) in H.
  apply NoDup_app_remove_r in H. exact H.
Qed.

Lemma NoDup_skipn (A : Type) (n : nat) (l : list A) :
  NoDup l -> NoDup (skipn n l).
Proof.
  intros H. rewrite <- (firstn_skipn n l) in H.
  apply NoDup_app_remove_l in H. exact H.
Qed.

Lemma ranked_positions_NoDup (distances : list Q) :
  NoDup (map fst (ranked distances)).
Proof.
  apply (Permutation_NoDup
           (Permutation_sym (Permutation_map fst (ranked_perm distances)))).
  unfold Py.enumerate. rewrite enumerate_from_fst. apply seq_NoDup.
Qed.

(** What a returned list is made of: the tuples of the catalog rows at
    the positions of the slice, in order. *)
Lemma recommend_from_positions (movies : Pd.DataFrame)
  (similarity : Np.ndarray) (name : string) (top_n idx : Z)
  (distances : list Q) (out : list recommendation) :
  resolve movies name = Return idx ->
  Np.getitem similarity idx = Return distances ->
  recommend_movie movies similarity name top_n = Return out ->
  Forall2 (fun c o => result_entry movies c = Return o)
          (Py.slice (ranked distances) 1 (top_n + 1)) out
  /\ Forall2 (entry_at movies distances)
             (map fst (Py.slice (ranked distances) 1 (top_n + 1))) out.
Proof.
  intros Hres Hget H. unfold recommend_movie in H.
  rewrite Hres, Hget in H. simpl in H.
  apply for_each_Return_inv in H. split; [exact H |].
  apply (Forall2_map_fst _ _ _ _ _ _ _ H).
  intros c o Hc Hco. apply slice_incl in Hc.
  apply (result_entry_entry_at movies distances c o Hc Hco).
Qed.

(** X5.  No movie is recommended twice: a returned list is the list of
    tuples of pairwise distinct catalog positions. *)
Theorem recommend_positions_distinct (movies : Pd.DataFrame)
  (similarity : Np.ndarray) (name : string) (top_n idx : Z)
  (distances : list Q) (out : list recommendation) :
  resolve movies name = Return idx ->
  Np.getitem similarity idx = Return distances ->
  recommend_movie movies similarity name top_n = Return out ->
  exists positions,
    NoDup positions /\ Forall2 (entry_at movies distances) positions out.
Proof.
  intros Hres Hget H.
  exists (map fst (Py.slice (ranked distances) 1 (top_n + 1))).
  split.
  - unfold Py.slice. rewrite <- firstn_map, <- skipn_map.
    apply NoDup_firstn, NoDup_skipn, ranked_positions_NoDup.
  - apply (recommend_from_positions movies similarity name top_n idx
             distances out Hres Hget H).
Qed.

Lemma recommend_positions_distinct_witness :
  resolve example_movies "B" = Return 1
  /\ Np.getitem example_similarity 1 = Return [9 # 10; 1; 5 # 10; 5 # 10]%Q
  /\ recommend_movie example_movies example_similarity "B" 3
     = Return [("A"%string, (9 # 10)%Q, 862); ("C"%string, (5 # 10)%Q, 8844);
               ("D"%string, (5 # 10)%Q, 15602)]
  /\ exists positions,
       NoDup positions
       /\ Forall2 (entry_at example_movies [9 # 10; 1; 5 # 10; 5 # 10]%Q)
            positions
            [("A"%string, (9 # 10)%Q, 862); ("C"%string, (5 # 10)%Q, 8844);
             ("D"%string, (5 # 10)%Q, 15602)].
Proof.
  repeat (split; [reflexivity |]).
  apply (recommend_positions_distinct example_movies example_similarity
           "B" 3 1); reflexivity.
Defined.

Lemma precedes_asym (c d : nat * Q) : precedes c d -> precedes d c -> False.
Proof.
  intros [H1 | [E1 L1]] [H2 | [E2 L2]].
  - exact (Qlt_irrefl _ (Qlt_trans _ _ _ H1 H2)).
  - rewrite E2 in H1. exact (Qlt_irrefl _ H1).
  - rewrite E1 in H2. exact (Qlt_irrefl _ H2).
  - lia.
Qed.

(** The candidate that goes before every other one is at rank 0. *)
Lemma ranked_head (distances : list Q) (p : nat) (sp : Q) :
  nth_error distances p = Some sp ->
  (forall q s, q <> p -> nth_error distances q = Some s ->
               precedes (p, sp) (q, s)) ->
  nth_error (ranked distances) 0 = Some (p, sp).
Proof.
  intros Hp Htop.
  pose proof (proj2 (ranked_In distances p sp) Hp) as Hin.
  pose proof (ranked_sorted distances) as Hsorted.
  pose proof (ranked_In distances) as HIn.
  destruct (ranked distances) as [| [i0 s0] l]; [destruct Hin |].
  simpl. f_equal.
  pose proof (proj1 (HIn i0 s0) (or_introl eq_refl)) as H0.
  destruct (Nat.eq_dec i0 p) as [-> | Hne].
  - congruence.
  - exfalso. destruct Hin as [Heq | Hin]; [congruence |].
    inversion Hsorted as [| ? ? _ Hall]; subst.
    rewrite Forall_forall in Hall.
    apply (precedes_asym (i0, s0) (p, sp)).
    + apply Hall, Hin.
    + apply Htop; assumption.
Qed.

(** X6.  When no other movie scores higher than the query movie in its
    own row, and those that tie with it come later in the catalog, the
    entry left out at rank 0 is the query movie, and no tuple of the
    result comes from its position. *)
Theorem query_dropped_when_top (movies : Pd.DataFrame)
  (similarity : Np.ndarray) (name : string) (top_n : Z) (p : nat)
  (distances : list Q) (sp : Q) :
  RangeIndex movies ->
  square_for movies similarity ->
  first_position movies name p ->
  nth_error (Np.rows similarity) p = Some distances ->
  nth_error distances p = Some sp ->
  (forall q s, q <> p -> nth_error distances q = Some s ->
               (s < sp)%Q \/ ((s == sp)%Q /\ (p < q)%nat)) ->
  0 <= top_n ->
  nth_error (ranked distances) 0 = Some (p, sp)
  /\ exists positions out,
       recommend_movie movies similarity name top_n = Return out
       /\ Forall2 (entry_at movies distances) positions out
       /\ ~ In p positions.
Proof.
  intros Hidx Hsq Hp Hrow Hsp Htop Hn.
  assert (H0 : nth_error (ranked distances) 0 = Some (p, sp)).
  { apply ranked_head; [exact Hsp |].
    intros q s Hq Hs. destruct (Htop q s Hq Hs) as [Hlt | [He Hl]].
    - left. exact Hlt.
    - right. split; [symmetry; exact He | exact Hl]. }
  split; [exact H0 |].
  destruct (recommend_known movies similarity name p Hidx Hsq Hp)
    as [distances' [Hres [Hget [_ Hrec]]]].
  rewrite (getitem_nth similarity p distances Hrow) in Hget.
  injection Hget as <-.
  destruct (Hrec top_n) as [out [Hout _]].
  destruct (recommend_from_positions movies similarity name top_n
              (Z.of_nat p) distances out Hres
              (getitem_nth similarity p distances Hrow) Hout)
    as [_ HF].
  exists (map fst (Py.slice (ranked distances) 1 (top_n + 1))), out.
  split; [exact Hout |]. split; [exact HF |].
  rewrite slice_from_1 by lia. intros Hin.
  apply in_map_iff in Hin as [[i s] [Hi Hc]]. simpl in Hi. subst i.
  assert (Hs : s = sp).
  { apply In_firstn, In_skipn, ranked_In in Hc. congruence. }
  subst s. apply (rank_0_dropped distances (Z.to_nat top_n) (p, sp) H0).
  exact Hc.
Qed.

Lemma query_dropped_when_top_witness :
  RangeIndex example_movies
  /\ square_for example_movies example_similarity
  /\ first_position example_movies "A" 0
  /\ nth_error (Np.rows example_similarity) 0
     = Some [1; 9 # 10; 95 # 100; 2 # 10]%Q
  /\ nth_error [1; 9 # 10; 95 # 100; 2 # 10]%Q 0 = Some 1%Q
  /\ (forall q s, q <> 0%nat ->
        nth_error [1; 9 # 10; 95 # 100; 2 # 10]%Q q = Some s ->
        (s < 1)%Q \/ ((s == 1)%Q /\ (0 < q)%nat))
  /\ 0 <= 2
  /\ nth_error (ranked [1; 9 # 10; 95 # 100; 2 # 10]%Q) 0
     = Some (0%nat, 1%Q)
  /\ exists positions out,
       recommend_movie example_movies example_similarity "A" 2 = Return out
       /\ Forall2 (entry_at example_movies [1; 9 # 10; 95 # 100; 2 # 10]%Q)
                  positions out
       /\ ~ In 0%nat positions.
Proof.
  assert (Hfirst : first_position example_movies "A" 0).
  { split; [eexists; split; reflexivity |]. intros q r Hq. lia. }
  assert (Htop : forall q s, q <> 0%nat ->
            nth_error [1; 9 # 10; 95 # 100; 2 # 10]%Q q = Some s ->
            (s < 1)%Q \/ ((s == 1)%Q /\ (0 < q)%nat)).
  { intros q s Hq Hs. left.
    destruct q as [| [| [| [| q]]]]; simpl in Hs;
      [lia | | | | destruct q; discriminate Hs];
      injection Hs as <-; reflexivity. }
  split; [on_example |].
  split; [on_example |].
  split; [exact Hfirst |].
  split; [reflexivity |].
  split; [reflexivity |].
  split; [exact Htop |].
  split; [discriminate |].
  apply (query_dropped_when_top example_movies example_similarity "A" 2 0
           [1; 9 # 10; 95 # 100; 2 # 10]%Q 1%Q);
    try on_example; assumption.
Defined.

(** X7.  The query movie is not filtered out by identity: when another
    movie scores strictly higher in the row of the query, the query
    is not at rank 0, and a request for all [N - 1] recommendations
    returns the query movie itself among them. *)
Theorem query_recommended_when_outranked (movies : Pd.DataFrame)
  (similarity : Np.ndarray) (name : string) (top_n : Z) (p q : nat)
  (distances : list Q) (sp sq : Q) :
  RangeIndex movies ->
  square_for movies similarity ->
  first_position movies name p ->
  nth_error (Np.rows similarity) p = Some distances ->
  nth_error distances p = Some sp ->
  nth_error distances q = Some sq ->
  (sp < sq)%Q ->
  Z.of_nat (catalog_size movies) - 1 <= top_n ->
  exists out o,
    recommend_movie movies similarity name top_n = Return out
    /\ In o out
    /\ entry_at movies distances p o.
Proof.
  intros Hidx Hsq Hp Hrow Hsp Hq Hlt Hn.
  destruct (recommend_known movies similarity name p Hidx Hsq Hp)
    as [distances' [Hres [Hget [Hlen Hrec]]]].
  rewrite (getitem_nth similarity p distances Hrow) in Hget.
  injection Hget as <-.
  destruct (Hrec top_n) as [out [Hout HF]].
  pose proof (first_position_bound movies name p Hp) as Hb.
  rewrite slice_from_1 in HF by lia.
  rewrite firstn_all2 in HF
    by (rewrite length_skipn, ranked_length, Hlen; lia).
  assert (Hin : In (p, sp) (skipn 1 (ranked distances))).
  { pose proof (proj2 (ranked_In distances p sp) Hsp) as Hpin.
    pose proof (proj2 (ranked_In distances q sq) Hq) as Hqin.
    pose proof (ranked_sorted distances) as Hsorted.
    destruct (ranked distances) as [| c0 l]; [destruct Hpin |].
    simpl. destruct Hpin as [-> | Hpin]; [| exact Hpin].
    exfalso. destruct Hqin as [Heq | Hqin].
    - injection Heq as _ Heq. rewrite Heq in Hlt.
      exact (Qlt_irrefl _ Hlt).
    - inversion Hsorted as [| ? ? _ Hall]; subst.
      rewrite Forall_forall in Hall.
      pose proof (precedes_score _ _ (Hall _ Hqin)) as Hle.
      simpl in Hle. exact (Qlt_not_le _ _ Hlt Hle). }
  destruct (Forall2_In_l _ _ _ _ _ (p, sp) HF Hin) as [o [Ho Hentry]].
  exists out, o. split; [exact Hout |]. split; [exact Ho |].
  apply (result_entry_entry_at movies distances (p, sp) o).
  - apply In_skipn in Hin. exact Hin.
  - exact Hentry.
Qed.

Lemma query_recommended_when_outranked_witness :
  RangeIndex example_movies
  /\ square_for example_movies skewed_similarity
  /\ first_position example_movies "A" 0
  /\ nth_error (Np.rows skewed_similarity) 0
     = Some [5 # 10; 1; 2 # 10; 1 # 10]%Q
  /\ nth_error [5 # 10; 1; 2 # 10; 1 # 10]%Q 0 = Some (5 # 10)%Q
  /\ nth_error [5 # 10; 1; 2 # 10; 1 # 10]%Q 1 = Some 1%Q
  /\ (5 # 10 < 1)%Q
  /\ Z.of_nat (catalog_size example_movies) - 1 <= 3
  /\ exists out o,
       recommend_movie example_movies skewed_similarity "A" 3 = Return out
       /\ In o out
       /\ entry_at example_movies [5 # 10; 1; 2 # 10; 1 # 10]%Q 0 o.
Proof.
  assert (Hfirst : first_position example_movies "A" 0).
  { split; [eexists; split; reflexivity |]. intros q r Hq. lia. }
  split; [on_example |].
  split; [on_example |].
  split; [exact Hfirst |].
  split; [reflexivity |].
  split; [reflexivity |].
  split; [reflexivity |].
  split; [reflexivity |].
  split; [vm_compute; discriminate |].
  apply (query_recommended_when_outranked example_movies skewed_similarity
           "A" 3 0 1 [5 # 10; 1; 2 # 10; 1 # 10]%Q (5 # 10)%Q 1%Q).
  - on_example.
  - on_example.
  - exact Hfirst.
  - reflexivity.
  - reflexivity.
  - reflexivity.
  - reflexivity.
  - vm_compute; discriminate.
Defined.

(** X8.  The matrix row is chosen by index label, the catalog rows by
    position.  Whatever the index of the catalog is, for the first row
    [r] with the title, [recommend_movie] ranks the matrix row at
    [label r] (for a non-negative label) and runs the loop on its
    slice. *)
Theorem recommend_reads_row_at_label (movies : Pd.DataFrame)
  (similarity : Np.ndarray) (name : string) (top_n : Z) (p : nat)
  (r : Pd.row) (distances : list Q) :
  nth_error (Pd.records movies) p = Some r ->
  Pd.title r = name ->
  (forall q r', (q < p)%nat -> nth_error (Pd.records movies) q = Some r' ->
                Pd.title r' <> name) ->
  0 <= Pd.label r ->
  nth_error (Np.rows similarity) (Z.to_nat (Pd.label r)) = Some distances ->
  recommend_movie movies similarity name top_n
  = for_each (result_entry movies)
      (Py.slice (ranked distances) 1 (top_n + 1)).
Proof.
  intros Hp Ht Hlow Hlabel Hrow. unfold recommend_movie.
  rewrite (resolve_first_row movies name p r Hp Ht Hlow).
  replace (Pd.label r) with (Z.of_nat (Z.to_nat (Pd.label r))) by lia.
  rewrite (getitem_nth similarity _ distances Hrow). reflexivity.
Qed.

Lemma recommend_reads_row_at_label_witness :
  nth_error (Pd.records relabelled_movies) 0
  = Some (Pd.mk_row 2 "A" Pd.NaN)
  /\ Pd.title (Pd.mk_row 2 "A" Pd.NaN) = "A"%string
  /\ (forall q r', (q < 0)%nat ->
        nth_error (Pd.records relabelled_movies) q = Some r' ->
        Pd.title r' <> "A"%string)
  /\ 0 <= Pd.label (Pd.mk_row 2 "A" Pd.NaN)
  /\ nth_error (Np.rows example_similarity)
       (Z.to_nat (Pd.label (Pd.mk_row 2 "A" Pd.NaN)))
     = Some [95 # 100; 5 # 10; 1; 3 # 10]%Q
  /\ recommend_movie relabelled_movies example_similarity "A" 1
     = for_each (result_entry relabelled_movies)
         (Py.slice (ranked [95 # 100; 5 # 10; 1; 3 # 10]%Q) 1 (1 + 1)).
Proof.
  assert (Hlow : forall q r', (q < 0)%nat ->
            nth_error (Pd.records relabelled_movies) q = Some r' ->
            Pd.title r' <> "A"%string)
    by (intros q r' Hq; lia).
  split; [reflexivity |].
  split; [reflexivity |].
  split; [exact Hlow |].
  split; [discriminate |].
  split; [reflexivity |].
  apply (recommend_reads_row_at_label relabelled_movies example_similarity
           "A" 1 0 (Pd.mk_row 2 "A" Pd.NaN)
           [95 # 100; 5 # 10; 1; 3 # 10]%Q);
    [reflexivity | reflexivity | exact Hlow | discriminate | reflexivity].
Defined.

(** In the relabelled catalog the title [A], at position 0, is scored
    with matrix row 2, and the best candidate, position 0, is [A]
    itself. *)
Example recommend_relabelled :
  recommend_movie relabelled_movies example_similarity "A" 1
  = Return [("A"%string, (95 # 100)%Q, -1)].
Proof. reflexivity. Qed.

(* ================================================================= *)
(** ** Loading outside the claims *)

Lemma load_data_Return_inv (files : pickles) (movies : Pd.DataFrame)
  (similarity : Np.ndarray) :
  load_data files = Return (movies, similarity) ->
  movies = movies_pkl files
  /\ Np.ncols (similarity_part_0 files) = Np.ncols (similarity_part_1 files)
  /\ Np.ncols (similarity_part_1 files) = Np.ncols (similarity_part_2 files)
  /\ similarity
     = Np.mk_ndarray (Np.ncols (similarity_part_0 files))
         (Np.rows (similarity_part_0 files)
          ++ Np.rows (similarity_part_1 files)
          ++ Np.rows (similarity_part_2 files)).
Proof.
  intros H. unfold load_data in H.
  destruct (Nat.eq_dec (Np.ncols (similarity_part_0 files))
                       (Np.ncols (similarity_part_1 files))) as [H01 | H01];
    [destruct (Nat.eq_dec (Np.ncols (similarity_part_1 files))
                          (Np.ncols (similarity_part_2 files)))
       as [H12 | H12] |].
  - rewrite (concatenate_three _ _ _ H01 H12) in H. simpl in H.
    injection H as <- <-. repeat split; assumption.
  - rewrite concatenate_three_mismatch in H by tauto. discriminate H.
  - rewrite concatenate_three_mismatch in H by tauto. discriminate H.
Qed.

Lemma stitched_rectangular (p0 p1 p2 : Np.ndarray) :
  Np.rectangular p0 -> Np.rectangular p1 -> Np.rectangular p2 ->
  Np.ncols p0 = Np.ncols p1 -> Np.ncols p1 = Np.ncols p2 ->
  Np.rectangular
    (Np.mk_ndarray (Np.ncols p0) (Np.rows p0 ++ Np.rows p1 ++ Np.rows p2)).
Proof.
  unfold Np.rectangular. simpl. intros R0 R1 R2 H01 H12.
  rewrite !Forall_app. repeat split.
  - exact R0.
  - rewrite H01. exact R1.
  - rewrite H01, H12. exact R2.
Qed.

(** X9.  Loading keeps the arrays well formed: when the three chunks are
    rectangular and [load_data] returns, the catalog is the pickled one
    unchanged, and the matrix is rectangular, as wide as every chunk and
    as high as the three chunks together. *)
Theorem load_data_keeps_shape (files : pickles) (movies : Pd.DataFrame)
  (similarity : Np.ndarray) :
  Np.rectangular (similarity_part_0 files) ->
  Np.rectangular (similarity_part_1 files) ->
  Np.rectangular (similarity_part_2 files) ->
  load_data files = Return (movies, similarity) ->
  movies = movies_pkl files
  /\ Np.rectangular similarity
  /\ Np.nrows similarity
     = (Np.nrows (similarity_part_0 files)
        + Np.nrows (similarity_part_1 files)
        + Np.nrows (similarity_part_2 files))%nat
  /\ Np.ncols similarity = Np.ncols (similarity_part_0 files)
  /\ Np.ncols similarity = Np.ncols (similarity_part_1 files)
  /\ Np.ncols similarity = Np.ncols (similarity_part_2 files).
Proof.
  intros R0 R1 R2 H.
  apply load_data_Return_inv in H as [-> [H01 [H12 ->]]].
  split; [reflexivity |].
  split; [apply stitched_rectangular; assumption |].
  unfold Np.nrows. simpl.
  repeat split; try congruence.
  rewrite !length_app. lia.
Qed.

Lemma load_data_keeps_shape_witness :
  Np.rectangular example_part_0
  /\ Np.rectangular example_part_1
  /\ Np.rectangular example_part_2
  /\ load_data example_files = Return (example_movies, example_similarity)
  /\ example_movies = movies_pkl example_files
  /\ Np.rectangular example_similarity
  /\ Np.nrows example_similarity
     = (Np.nrows example_part_0 + Np.nrows example_part_1
        + Np.nrows example_part_2)%nat
  /\ Np.ncols example_similarity = Np.ncols example_part_0
  /\ Np.ncols example_similarity = Np.ncols example_part_1
  /\ Np.ncols example_similarity = Np.ncols example_part_2.
Proof.
  split; [unfold Np.rectangular; repeat constructor |].
  split; [unfold Np.rectangular; repeat constructor |].
  split; [unfold Np.rectangular; repeat constructor |].
  split; [reflexivity |].
  apply (load_data_keeps_shape example_files example_movies
           example_similarity).
  - unfold Np.rectangular; repeat constructor.
  - unfold Np.rectangular; repeat constructor.
  - unfold Np.rectangular; repeat constructor.
  - reflexivity.
Defined.

(** X10.  Loading and the engine fit: when the chunks are rectangular,
    their rows add up to the catalog size [N], their width is [N] and the
    catalog carries the default index, [load_data] returns, and
    [recommend_movie] on what it returned answers every title of
    [title_list] without an exception, for every [top_n]. *)
Theorem loaded_catalog_is_served (files : pickles) :
  Np.rectangular (similarity_part_0 files) ->
  Np.rectangular (similarity_part_1 files) ->
  Np.rectangular (similarity_part_2 files) ->
  Np.ncols (similarity_part_0 files) = catalog_size (movies_pkl files) ->
  Np.ncols (similarity_part_1 files) = catalog_size (movies_pkl files) ->
  Np.ncols (similarity_part_2 files) = catalog_size (movies_pkl files) ->
  (Np.nrows (similarity_part_0 files) + Np.nrows (similarity_part_1 files)
   + Np.nrows (similarity_part_2 files))%nat
  = catalog_size (movies_pkl files) ->
  RangeIndex (movies_pkl files) ->
  exists movies similarity,
    load_data files = Return (movies, similarity)
    /\ square_for movies similarity
    /\ forall name top_n,
         In name (title_list movies) ->
         exists out,
           recommend_movie movies similarity name top_n = Return out.
Proof.
  intros R0 R1 R2 C0 C1 C2 Hsum Hidx.
  assert (Hload : load_data files
                  = Return (movies_pkl files,
                            Np.mk_ndarray (Np.ncols (similarity_part_0 files))
                              (Np.rows (similarity_part_0 files)
                               ++ Np.rows (similarity_part_1 files)
                               ++ Np.rows (similarity_part_2 files)))).
  { unfold load_data.
    rewrite (concatenate_three _ _ _ (eq_trans C0 (eq_sym C1))
               (eq_trans C1 (eq_sym C2))).
    reflexivity. }
  pose proof (stitched_rectangular _ _ _ R0 R1 R2
                (eq_trans C0 (eq_sym C1)) (eq_trans C1 (eq_sym C2)))
    as Hrect.
  eexists _, _. split; [exact Hload |].
  assert (Hsq : square_for (movies_pkl files)
                  (Np.mk_ndarray (Np.ncols (similarity_part_0 files))
                     (Np.rows (similarity_part_0 files)
                      ++ Np.rows (similarity_part_1 files)
                      ++ Np.rows (similarity_part_2 files)))).
  { split; [exact Hrect |]. unfold Np.shape, Np.nrows. simpl.
    rewrite !length_app, C0. f_equal.
    unfold Np.nrows in Hsum. lia. }
  split; [exact Hsq |].
  intros name top_n Hname. unfold title_list in Hname.
  apply in_map_iff in Hname as [r [Ht Hr]].
  assert (Hin : in_catalog (movies_pkl files) name)
    by (exists r; split; assumption).
  destruct (in_catalog_first_position _ _ Hin) as [p Hp].
  destruct (recommend_known _ _ name p Hidx Hsq Hp)
    as [distances [_ [_ [_ Hrec]]]].
  destruct (Hrec top_n) as [out [Hout _]].
  exists out. exact Hout.
Qed.

Lemma loaded_catalog_is_served_witness :
  Np.rectangular example_part_0
  /\ Np.rectangular example_part_1
  /\ Np.rectangular example_part_2
  /\ Np.ncols example_part_0 = catalog_size example_movies
  /\ Np.ncols example_part_1 = catalog_size example_movies
  /\ Np.ncols example_part_2 = catalog_size example_movies
  /\ (Np.nrows example_part_0 + Np.nrows example_part_1
      + Np.nrows example_part_2)%nat
     = catalog_size example_movies
  /\ RangeIndex example_movies
  /\ exists movies similarity,
       load_data example_files = Return (movies, similarity)
       /\ square_for movies similarity
       /\ forall name top_n,
            In name (title_list movies) ->
            exists out,
              recommend_movie movies similarity name top_n = Return out.
Proof.
  split; [unfold Np.rectangular; repeat constructor |].
  split; [unfold Np.rectangular; repeat constructor |].
  split; [unfold Np.rectangular; repeat constructor |].
  split; [reflexivity |].
  split; [reflexivity |].
  split; [reflexivity |].
  split; [reflexivity |].
  split; [reflexivity |].
  apply (loaded_catalog_is_served example_files).
  - unfold Np.rectangular; repeat constructor.
  - unfold Np.rectangular; repeat constructor.
  - unfold Np.rectangular; repeat constructor.
  - reflexivity.
  - reflexivity.
  - reflexivity.
  - reflexivity.
  - reflexivity.
Defined.

(* ================================================================= *)
(** ** The poster lookup outside the claims *)

Lemma cache_lookup_head (tmdb_id : Z) (api_key v : string)
  (c : poster_cache) :
  cache_lookup tmdb_id api_key (((tmdb_id, api_key), v) :: c) = Some v.
Proof.
  simpl. rewrite Z.eqb_refl, String.eqb_refl. reflexivity.
Qed.

(** X11.  The decorated [fetch_poster] always returns a string and makes
    at most one request per call.  Every negative id counts as unknown,
    not only [-1]: for a negative id or an empty key nothing is
    requested.  A call whose arguments are in the cache returns the
    stored string and requests nothing; a call whose arguments are not,
    with a non-negative id and a non-empty key, makes exactly one
    request, to the movie URL of the id with the key, whatever the
    answer is.  Each call leaves its result in the cache: the same call
    made again requests nothing and returns the same string, whatever
    the endpoint would answer then. *)
Theorem fetch_poster_cached_requests (net : Requests.network)
  (tmdb_id : Z) (api_key : string) (c : poster_cache) (log : list string) :
  exists v c1 log1,
    fetch_poster_cached net tmdb_id api_key c log = (Return v, c1, log1)
    /\ (log1 = log \/ log1 = log ++ [poster_url tmdb_id api_key])
    /\ (tmdb_id < 0 \/ api_key = EmptyString -> log1 = log)
    /\ (forall v0, cache_lookup tmdb_id api_key c = Some v0 ->
          v = v0 /\ c1 = c /\ log1 = log)
    /\ (cache_lookup tmdb_id api_key c = None ->
        0 <= tmdb_id -> api_key <> EmptyString ->
        log1 = log ++ [poster_url tmdb_id api_key])
    /\ (cache_lookup tmdb_id api_key c = None ->
        tmdb_id < 0 \/ api_key = EmptyString -> v = EmptyString)
    /\ (forall net2,
          fetch_poster_cached net2 tmdb_id api_key c1 log1
          = (Return v, c1, log1)).
Proof.
  unfold fetch_poster_cached.
  destruct (cache_lookup tmdb_id api_key c) as [v0 |] eqn:Hc.
  - exists v0, c, log. split; [reflexivity |].
    split; [left; reflexivity |]. split; [reflexivity |].
    split; [intros v1 H1; injection H1 as <-; repeat split |].
    split; [discriminate |]. split; [discriminate |].
    intros net2. rewrite Hc. reflexivity.
  - rewrite fetch_poster_cases.
    destruct (Z.ltb_spec tmdb_id 0) as [Hneg | Hpos];
      [| destruct (String.eqb_spec api_key EmptyString) as [Hkey | Hkey]];
      simpl.
    + exists EmptyString, (((tmdb_id, api_key), EmptyString) :: c), log.
      split; [reflexivity |]. split; [left; reflexivity |].
      split; [reflexivity |]. split; [discriminate |].
      split; [intros _ H; lia |]. split; [reflexivity |].
      intros net2. rewrite cache_lookup_head. reflexivity.
    + exists EmptyString, (((tmdb_id, api_key), EmptyString) :: c), log.
      split; [reflexivity |]. split; [left; reflexivity |].
      split; [reflexivity |]. split; [discriminate |].
      split; [intros _ _ H; contradiction |]. split; [reflexivity |].
      intros net2. rewrite cache_lookup_head. reflexivity.
    + eexists _, _, _. split; [reflexivity |].
      split; [right; reflexivity |].
      split; [intros [H | H]; [lia | contradiction] |].
      split; [discriminate |]. split; [reflexivity |].
      split; [intros _ [H | H]; [lia | contradiction] |].
      intros net2. rewrite cache_lookup_head. reflexivity.
Qed.

Lemma fetch_poster_cached_requests_witness :
  cache_lookup 862 "key" [] = None
  /\ 0 <= 862
  /\ "key"%string <> EmptyString
  /\ exists v c1 log1,
       fetch_poster_cached net_ok 862 "key" [] [] = (Return v, c1, log1)
       /\ log1 = [] ++ [poster_url 862 "key"]
       /\ fetch_poster_cached net_down 862 "key" c1 log1
          = (Return v, c1, log1).
Proof.
  split; [reflexivity |].
  split; [discriminate |].
  split; [discriminate |].
  destruct (fetch_poster_cached_requests net_ok 862 "key" [] [])
    as [v [c1 [log1 [H1 [_ [_ [_ [H5 [_ H7]]]]]]]]].
  exists v, c1, log1.
  split; [exact H1 |].
  split; [apply H5; [reflexivity | discriminate | discriminate] |].
  apply H7.
Defined.

(** X12.  On success the result is the image base followed by the path:
    for a non-negative id and a non-empty key, a 200 answer whose JSON
    object holds a non-empty string under [poster_path] gives that URL,
    after one request. *)
Theorem fetch_poster_success (net : Requests.network) (tmdb_id : Z)
  (api_key : string) (log : list string) (resp : Requests.response)
  (d : list (string * Requests.value)) (path : string) :
  0 <= tmdb_id ->
  api_key <> EmptyString ->
  net (poster_url tmdb_id api_key) = Return resp ->
  Requests.status_code resp = 200 ->
  Requests.json resp = Return (Requests.VDict d) ->
  Requests.lookup "poster_path" d = Some (Requests.VStr path) ->
  path <> EmptyString ->
  fetch_poster net tmdb_id api_key log
  = (Return (String.append image_base path),
     log ++ [poster_url tmdb_id api_key]).
Proof.
  intros Hid Hkey Hnet Hst Hjson Hlook Hpath.
  rewrite fetch_poster_cases.
  destruct (Z.ltb_spec tmdb_id 0) as [H | _]; [lia |].
  destruct (String.eqb_spec api_key EmptyString) as [H | _];
    [contradiction |].
  simpl. rewrite Hnet, Hst, Hjson, Hlook. simpl.
  destruct (String.eqb_spec path EmptyString) as [H | _];
    [contradiction | reflexivity].
Qed.

Lemma fetch_poster_success_witness :
  0 <= 862
  /\ "key"%string <> EmptyString
  /\ net_ok (poster_url 862 "key")
     = Return (Requests.mk_response 200
                 (Return (Requests.VDict
                            [("poster_path"%string,
                              Requests.VStr "/a.jpg")])))
  /\ fetch_poster net_ok 862 "key" []
     = (Return (String.append image_base "/a.jpg"),
        [] ++ [poster_url 862 "key"]).
Proof.
  split; [discriminate |].
  split; [discriminate |].
  split; [reflexivity |].
  apply (fetch_poster_success net_ok 862 "key" []
           (Requests.mk_response 200
              (Return (Requests.VDict
                         [("poster_path"%string, Requests.VStr "/a.jpg")])))
           [("poster_path"%string, Requests.VStr "/a.jpg")] "/a.jpg").
  - discriminate.
  - discriminate.
  - reflexivity.
  - reflexivity.
  - reflexivity.
  - reflexivity.
  - discriminate.
Defined.

(** X13.  A malformed answer is swallowed: the result is the empty string
    when the body is not JSON, when the JSON value is not an object, and
    when the value under [poster_path] is not a non-empty string (a
    number, a list, the empty string). *)
Theorem fetch_poster_malformed (net : Requests.network) (tmdb_id : Z)
  (api_key : string) (log : list string) (resp : Requests.response) :
  net (poster_url tmdb_id api_key) = Return resp ->
  (forall e, Requests.json resp = Raise e ->
     fst (fetch_poster net tmdb_id api_key log) = Return EmptyString)
  /\ (forall data, Requests.json resp = Return data ->
        (forall d, data <> Requests.VDict d) ->
        fst (fetch_poster net tmdb_id api_key log) = Return EmptyString)
  /\ (forall d v, Requests.json resp = Return (Requests.VDict d) ->
        Requests.lookup "poster_path" d = Some v ->
        (forall s, v = Requests.VStr s -> s = EmptyString) ->
        fst (fetch_poster net tmdb_id api_key log) = Return EmptyString).
Proof.
  intros Hnet. rewrite fetch_poster_cases, Hnet.
  destruct ((tmdb_id <? 0) || String.eqb api_key EmptyString);
    [repeat split; reflexivity |].
  simpl. destruct (Requests.status_code resp =? 200);
    [| repeat split; reflexivity].
  repeat split.
  - intros e He. rewrite He. reflexivity.
  - intros data Hdata Hnot. rewrite Hdata.
    destruct data; try reflexivity. exfalso. apply (Hnot d). reflexivity.
  - intros d v Hjson Hlook Hv. rewrite Hjson, Hlook.
    destruct v as [| b | n | q | s | l | d']; try reflexivity.
    rewrite (Hv s eq_refl). reflexivity.
Qed.

Lemma fetch_poster_malformed_witness :
  (fun _ : string =>
     Return (Requests.mk_response 200
               (Return (Requests.VDict
                          [("poster_path"%string, Requests.VInt 7)]))))
    (poster_url 862 "key")
  = Return (Requests.mk_response 200
              (Return (Requests.VDict
                         [("poster_path"%string, Requests.VInt 7)])))
  /\ fst (fetch_poster
            (fun _ : string =>
               Return (Requests.mk_response 200
                         (Return (Requests.VDict
                                    [("poster_path"%string,
                                      Requests.VInt 7)]))))
            862 "key" [])
     = Return EmptyString.
Proof.
  split; [reflexivity |].
  destruct (fetch_poster_malformed
              (fun _ : string =>
                 Return (Requests.mk_response 200
                           (Return (Requests.VDict
                                      [("poster_path"%string,
                                        Requests.VInt 7)]))))
              862 "key" []
              (Requests.mk_response 200
                 (Return (Requests.VDict
                            [("poster_path"%string, Requests.VInt 7)])))
              eq_refl) as [_ [_ H]].
  apply (H [("poster_path"%string, Requests.VInt 7)] (Requests.VInt 7)).
  - reflexivity.
  - reflexivity.
  - intros s Hs. discriminate Hs.
Defined.

(* ================================================================= *)
(** ** The sidebar and the grid *)

(** Induction on lists, three elements at a time. *)
Lemma list_ind3 (A : Type) (P : list A -> Prop) :
  P [] ->
  (forall a, P [a]) ->
  (forall a b, P [a; b]) ->
  (forall a b c l, P l -> P (a :: b :: c :: l)) ->
  forall l, P l.
Proof.
  intros H0 H1 H2 H3.
  assert (H : forall n l, (length l <= n)%nat -> P l).
  { induction n as [| n IH]; intros l Hl.
    - destruct l; [exact H0 | simpl in Hl; lia].
    - destruct l as [| a [| b [| c l]]];
        [exact H0 | apply H1 | apply H2 |].
      apply H3, IH. simpl in Hl. lia. }
  intros l. apply (H (length l)). lia.
Qed.

(** The first three recommendations fill the first row; the rest of the
    grid is the grid of the rest. *)
Lemma grid_step (A B : Type) (show : A -> B) (a b c : A) (l : list A) :
  Ui.grid show (a :: b :: c :: l)
  = [Some (show a); Some (show b); Some (show c)] :: Ui.grid show l.
Proof.
  unfold Ui.grid, Ui.grid_rows, Ui.cols_per_row.
  assert (Hrows : ((length (a :: b :: c :: l) + 3 - 1) / 3
                   = S ((length l + 3 - 1) / 3))%nat).
  { simpl length.
    replace (S (S (S (length l))) + 3 - 1)%nat
      with ((length l + 3 - 1) + 1 * 3)%nat by lia.
    rewrite Nat.div_add by lia. lia. }
  rewrite Hrows. cbn [seq map]. rewrite <- seq_shift, map_map.
  reflexivity.
Qed.

(** X14.  The grid shows every recommendation exactly once, in the order
    of the list: reading the cards row by row gives the list back. *)
Theorem grid_shows_every_recommendation (A B : Type) (show : A -> B)
  (recs : list A) :
  Ui.shown (Ui.grid show recs) = map show recs.
Proof.
  induction recs as [| a | a b | a b c l IH] using list_ind3;
    try reflexivity.
  rewrite grid_step. unfold Ui.shown in *. simpl.
  rewrite IH. reflexivity.
Qed.

(** X15.  The shape of the grid: every row has three columns and its
    first column is filled, so no row is empty; the rows are as few as
    can hold the list; and every row but the last is full. *)
Theorem grid_shape (A B : Type) (show : A -> B) (recs : list A) :
  Forall (fun row => length row = 3%nat
                     /\ exists x, nth_error row 0 = Some (Some x))
         (Ui.grid show recs)
  /\ (length recs <= 3 * length (Ui.grid show recs) < length recs + 3)%nat
  /\ Forall (Forall (fun cell => cell <> None))
            (removelast (Ui.grid show recs)).
Proof.
  induction recs as [| a | a b | a b c l IH] using list_ind3.
  - repeat split; simpl; try lia; constructor.
  - repeat split; simpl; try lia; repeat constructor. eexists; reflexivity.
  - repeat split; simpl; try lia; repeat constructor. eexists; reflexivity.
  - destruct IH as [Hrows [Hcount Hfull]]. rewrite grid_step.
    repeat split.
    + constructor; [| exact Hrows].
      split; [reflexivity | eexists; reflexivity].
    + simpl length. lia.
    + simpl length. lia.
    + destruct (Ui.grid show l) as [| row g] eqn:Hg.
      * constructor.
      * change (removelast (?r :: row :: g))
          with (r :: removelast (row :: g)).
        constructor; [| exact Hfull].
        repeat constructor; discriminate.
Qed.

(** X16.  Posters are on (the box is set and the key is non-empty) in
    exactly two cases: a default key of more than 10 characters is
    configured, or the user ticked the box and typed a key.  A default
    key of at most 10 characters is ignored: the key in use is then what
    the user typed. *)
Theorem sidebar_posters_on (DEFAULT_API_KEY : string) (w : Ui.widgets) :
  (Ui.use_posters (Ui.sidebar DEFAULT_API_KEY w) = true
   /\ Ui.tmdb_api_key (Ui.sidebar DEFAULT_API_KEY w) <> EmptyString
   <-> 10 < Z.of_nat (String.length DEFAULT_API_KEY)
       \/ (Z.of_nat (String.length DEFAULT_API_KEY) <= 10
           /\ Ui.checkbox w = true /\ Ui.text_input w <> EmptyString))
  /\ (Z.of_nat (String.length DEFAULT_API_KEY) <= 10 ->
      Ui.use_posters (Ui.sidebar DEFAULT_API_KEY w) = true ->
      Ui.tmdb_api_key (Ui.sidebar DEFAULT_API_KEY w) = Ui.text_input w)
  /\ Ui.n_recs (Ui.sidebar DEFAULT_API_KEY w) = Ui.slider w.
Proof.
  unfold Ui.sidebar.
  destruct (Z.ltb_spec 10 (Z.of_nat (String.length DEFAULT_API_KEY)))
    as [Hlong | Hshort]; simpl.
  - split; [split |].
    + intros _. left. exact Hlong.
    + intros _. split; [reflexivity |].
      intros He. rewrite He in Hlong. simpl in Hlong. lia.
    + split; [lia | reflexivity].
  - split; [split |].
    + intros [Hbox Hkey]. right. rewrite Hbox in Hkey. tauto.
    + intros [H | [_ [Hbox Hkey]]]; [lia |]. rewrite Hbox.
      split; [reflexivity | exact Hkey].
    + split; [| reflexivity]. intros _ Hbox. rewrite Hbox. reflexivity.
Qed.

Lemma sidebar_posters_on_witness :
  Z.of_nat (String.length "short") <= 10
  /\ Ui.use_posters
       (Ui.sidebar "short" (Ui.mk_widgets 6 true "typed-key" "A" true))
     = true
  /\ Ui.tmdb_api_key
       (Ui.sidebar "short" (Ui.mk_widgets 6 true "typed-key" "A" true))
     = Ui.text_input (Ui.mk_widgets 6 true "typed-key" "A" true).
Proof.
  split; [discriminate |].
  split; [reflexivity |].
  destruct (sidebar_posters_on "short"
              (Ui.mk_widgets 6 true "typed-key" "A" true))
    as [_ [H _]].
  apply H; [discriminate | reflexivity].
Defined.

Lemma poster_of_form (net : Requests.network) (tmdb_id : Z)
  (api_key : string) :
  poster_of net tmdb_id api_key = EmptyString
  \/ exists path, path <> EmptyString
                  /\ poster_of net tmdb_id api_key
                     = String.append image_base path.
Proof.
  unfold poster_of. rewrite fetch_poster_cases.
  destruct ((tmdb_id <? 0) || String.eqb api_key EmptyString);
    [left; reflexivity |].
  simpl. destruct (net (poster_url tmdb_id api_key)) as [resp | e];
    [| left; reflexivity].
  destruct (Requests.status_code resp =? 200); [| left; reflexivity].
  destruct (Requests.json resp) as [data | e]; [| left; reflexivity].
  destruct data as [| b | n | q | s | l | d]; try (left; reflexivity).
  destruct (Requests.lookup "poster_path" d) as [v |];
    [| left; reflexivity].
  destruct v as [| b | n | q | path | l | d']; try (left; reflexivity).
  destruct (String.eqb_spec path EmptyString) as [He | Hpath];
    [left; reflexivity |].
  right. exists path. split; [exact Hpath | reflexivity].
Qed.

Lemma poster_of_negative (net : Requests.network) (tmdb_id : Z)
  (api_key : string) :
  tmdb_id < 0 -> poster_of net tmdb_id api_key = EmptyString.
Proof.
  intros H. unfold poster_of. rewrite fetch_poster_cases.
  apply Z.ltb_lt in H. rewrite H. reflexivity.
Qed.

(** X17.  A card never carries an empty image address.  With posters off
    it has no image.  With posters on it has one: the placeholder when
    the lookup gave nothing, as it does for every recommendation without
    an id, and otherwise an address under the image base. *)
Theorem card_image_never_empty (net : Requests.network) (s : Ui.settings)
  (title : string) (score : Q) (mid : Z) :
  (Ui.use_posters s = false \/ Ui.tmdb_api_key s = EmptyString ->
   Ui.card_image (Ui.card_of (poster_of net) s (title, score, mid)) = None)
  /\ (Ui.use_posters s = true -> Ui.tmdb_api_key s <> EmptyString ->
      exists img,
        Ui.card_image (Ui.card_of (poster_of net) s (title, score, mid))
        = Some img
        /\ img <> EmptyString
        /\ (mid < 0 -> img = Ui.placeholder)
        /\ (img = Ui.placeholder
            \/ exists path, path <> EmptyString
                            /\ img = String.append image_base path)).
Proof.
  unfold Ui.card_of. split.
  - intros [-> | ->]; [reflexivity |].
    rewrite andb_false_r. reflexivity.
  - intros -> Hkey.
    destruct (String.eqb_spec (Ui.tmdb_api_key s) EmptyString) as [H | _];
      [contradiction |].
    simpl.
    destruct (String.eqb_spec (poster_of net mid (Ui.tmdb_api_key s))
                EmptyString) as [He | Hne]; simpl.
    + exists Ui.placeholder. repeat split.
      * discriminate.
      * left. reflexivity.
    + exists (poster_of net mid (Ui.tmdb_api_key s)). repeat split.
      * exact Hne.
      * intros Hneg. exfalso. apply Hne.
        apply poster_of_negative, Hneg.
      * destruct (poster_of_form net mid (Ui.tmdb_api_key s))
          as [H | H]; [contradiction | right; exact H].
Qed.

Lemma card_image_never_empty_witness :
  Ui.use_posters (Ui.mk_settings 6 true "key") = true
  /\ Ui.tmdb_api_key (Ui.mk_settings 6 true "key") <> EmptyString
  /\ exists img,
       Ui.card_image
         (Ui.card_of (poster_of net_down) (Ui.mk_settings 6 true "key")
            ("B"%string, (9 # 10)%Q, -1))
       = Some img
       /\ img <> EmptyString
       /\ (-1 < 0 -> img = Ui.placeholder)
       /\ (img = Ui.placeholder
           \/ exists path, path <> EmptyString
                           /\ img = String.append image_base path).
Proof.
  split; [reflexivity |].
  split; [discriminate |].
  apply (proj2 (card_image_never_empty net_down
                  (Ui.mk_settings 6 true "key") "B" (9 # 10)%Q (-1))).
  - reflexivity.
  - discriminate.
Defined.

Lemma sidebar_n_recs (DEFAULT_API_KEY : string) (w : Ui.widgets) :
  Ui.n_recs (Ui.sidebar DEFAULT_API_KEY w) = Ui.slider w.
Proof.
  unfold Ui.sidebar.
  destruct (10 <? Z.of_nat (String.length DEFAULT_API_KEY)); reflexivity.
Qed.

Lemma for_each_map (A B : Type) (f : A -> result B) (g : A -> B)
  (l : list A) :
  (forall x, In x l -> f x = Return (g x)) ->
  for_each f l = Return (map g l).
Proof.
  induction l as [| x l IH]; intros H; simpl.
  - reflexivity.
  - rewrite (H x (or_introl eq_refl)). simpl.
    rewrite IH by (intros y Hy; apply H; right; exact Hy).
    reflexivity.
Qed.

Lemma Forall2_nth_l (A B : Type) (R : A -> B -> Prop) (l : list A)
  (l' : list B) :
  Forall2 R l l' ->
  forall (k : nat) (x : A), nth_error l k = Some x ->
    exists y, nth_error l' k = Some y /\ R x y.
Proof.
  induction 1 as [| x y l l' Hxy _ IH]; intros k x0 Hk.
  - destruct k; discriminate Hk.
  - destruct k as [| k]; simpl in Hk.
    + injection Hk as <-. exists y. split; [reflexivity | exact Hxy].
    + apply IH, Hk.
Qed.

(** When every column can be filled, the loops build the grid of what
    the columns show. *)
Lemma grid_m_Return (A B : Type) (show : A -> result B) (recs : list A)
  (ys : list B) :
  for_each show recs = Return ys ->
  Ui.grid_m show recs = Return (Ui.grid (fun y => y) ys).
Proof.
  intros H. apply for_each_Return_inv in H.
  pose proof (Forall2_length H) as Hlen.
  unfold Ui.grid_m, Ui.grid. rewrite <- Hlen.
  apply for_each_map. intros i _.
  apply for_each_map. intros j _. cbv zeta.
  destruct (Nat.ltb_spec (i * Ui.cols_per_row + j) (length recs))
    as [Hlt | _]; [| reflexivity].
  destruct (nth_error recs (i * Ui.cols_per_row + j)) as [x |] eqn:Hx.
  - destruct (Forall2_nth_l _ _ _ _ _ H _ x Hx) as [y [Hy Hxy]].
    rewrite Hxy, Hy. reflexivity.
  - apply nth_error_None in Hx. lia.
Qed.

(** When a column cannot be filled, the loops end in an exception. *)
Lemma grid_m_Raise (A B : Type) (show : A -> result B) (recs : list A)
  (x : A) (e : exn) :
  In x recs -> show x = Raise e ->
  exists e', Ui.grid_m show recs = Raise e'.
Proof.
  intros Hx He. apply In_nth_error in Hx as [idx Hidx].
  assert (Hlt : (idx < length recs)%nat)
    by (apply nth_error_Some; rewrite Hidx; discriminate).
  pose proof (Nat.div_mod_eq idx 3) as Hdm.
  pose proof (Nat.mod_upper_bound idx 3 ltac:(discriminate)) as Hj.
  pose proof (Nat.div_mod_eq (length recs + 3 - 1) 3) as Hrows.
  pose proof (Nat.mod_upper_bound (length recs + 3 - 1) 3
                ltac:(discriminate)) as Hr.
  unfold Ui.grid_m, Ui.grid_rows, Ui.cols_per_row.
  set (cell := fun i j : nat =>
                 if (i * 3 + j <? length recs)%nat
                 then match nth_error recs (i * 3 + j) with
                      | Some rec => y <- show rec ;; Return (Some y)
                      | None => Raise IndexError
                      end
                 else Return None).
  assert (Hcell : cell (idx / 3)%nat (idx mod 3)%nat = Raise e).
  { unfold cell.
    replace (idx / 3 * 3 + idx mod 3)%nat with idx by lia.
    apply Nat.ltb_lt in Hlt. rewrite Hlt, Hidx, He. reflexivity. }
  destruct (for_each_Raise _ _ (cell (idx / 3)%nat) (seq 0 3)
              (idx mod 3)%nat e) as [_ [e1 [_ [_ Hrow]]]].
  { apply in_seq. lia. }
  { exact Hcell. }
  destruct (for_each_Raise _ _
              (fun i => for_each (cell i) (seq 0 3))
              (seq 0 ((length recs + 3 - 1) / 3)) (idx / 3)%nat e1)
    as [_ [e2 [_ [_ Hgrid]]]].
  { apply in_seq. lia. }
  { exact Hrow. }
  exists e2. exact Hgrid.
Qed.

(** X18.  The page for a title picked from the selector.  With the data
    as the data model has them and the slider in its range [3 .. 12],
    the engine returns [min n_recs (N-1)] recommendations on a press of
    the button.  For a catalog of a single movie the page shows the
    warning.  Otherwise, when the caption is defined for the score of
    every recommendation, the page shows the grid of their cards, each
    with its caption; and when the caption raises for one of them, the
    page ends in an exception. *)
Theorem page_for_selected_title (movies : Pd.DataFrame)
  (similarity : Np.ndarray) (poster : Z -> string -> string)
  (percent : Q -> result Z) (DEFAULT_API_KEY : string) (w : Ui.widgets) :
  RangeIndex movies ->
  square_for movies similarity ->
  In (Ui.selectbox w) (title_list movies) ->
  Ui.button w = true ->
  3 <= Ui.slider w <= 12 ->
  exists recs,
    recommend_movie movies similarity (Ui.selectbox w) (Ui.slider w)
    = Return recs
    /\ length recs
       = Nat.min (Z.to_nat (Ui.slider w)) (catalog_size movies - 1)
    /\ (catalog_size movies = 1%nat ->
        Ui.main movies similarity poster percent DEFAULT_API_KEY w
        = Return Ui.Warning)
    /\ (catalog_size movies <> 1%nat ->
        (forall o, In o recs -> exists n, percent (score_of o) = Return n) ->
        exists cells,
          Ui.main movies similarity poster percent DEFAULT_API_KEY w
          = Return (Ui.Cards (Ui.grid (fun cell => cell) cells))
          /\ Forall2
               (fun o cell =>
                  fst cell
                  = Ui.card_of poster (Ui.sidebar DEFAULT_API_KEY w) o
                  /\ percent (score_of o) = Return (snd cell))
               recs cells)
    /\ (forall o e, In o recs -> percent (score_of o) = Raise e ->
        exists e',
          Ui.main movies similarity poster percent DEFAULT_API_KEY w
          = Raise e').
Proof.
  intros Hidx Hsq Hsel Hbutton Hslider.
  unfold title_list in Hsel. apply in_map_iff in Hsel as [r [Ht Hr]].
  assert (Hin : in_catalog movies (Ui.selectbox w))
    by (exists r; split; assumption).
  destruct (in_catalog_first_position _ _ Hin) as [p Hp].
  destruct (recommend_known movies similarity _ p Hidx Hsq Hp)
    as [distances [_ [_ [Hlen Hrec]]]].
  destruct (Hrec (Ui.slider w)) as [recs [Hrecs HF]].
  rewrite slice_from_1 in HF by lia.
  assert (Hn : length recs
               = Nat.min (Z.to_nat (Ui.slider w)) (catalog_size movies - 1)).
  { rewrite <- (Forall2_length HF), length_firstn, length_skipn,
      ranked_length, Hlen. reflexivity. }
  pose proof (first_position_bound movies _ p Hp) as Hb.
  assert (Hscore : forall o, Ui.card_score
                               (Ui.card_of poster
                                  (Ui.sidebar DEFAULT_API_KEY w) o)
                             = score_of o).
  { intros [[t sc] mid]. reflexivity. }
  exists recs. split; [exact Hrecs |]. split; [exact Hn |].
  unfold Ui.main. rewrite Hbutton, sidebar_n_recs, Hrecs. simpl.
  split; [| split].
  - intros HN. destruct recs as [| o recs]; [reflexivity |].
    simpl in Hn. lia.
  - intros HN Hcap. destruct recs as [| o recs]; [simpl in Hn; lia |].
    destruct (for_each_total _ _
                (Ui.cell_of poster percent (Ui.sidebar DEFAULT_API_KEY w))
                (o :: recs)) as [cells [Hcells HF2]].
    { apply Forall_forall. intros o' Ho'.
      destruct (Hcap o' Ho') as [n Hn'].
      exists (Ui.card_of poster (Ui.sidebar DEFAULT_API_KEY w) o', n).
      unfold Ui.cell_of. rewrite Hscore, Hn'. reflexivity. }
    exists cells. rewrite (grid_m_Return _ _ _ _ _ Hcells). simpl.
    split; [reflexivity |].
    eapply Forall2_impl; [| exact HF2].
    intros o' cell Hcell. unfold Ui.cell_of in Hcell.
    rewrite Hscore in Hcell.
    destruct (percent (score_of o')) as [n | e]; [| discriminate Hcell].
    simpl in Hcell. injection Hcell as <-. split; reflexivity.
  - intros o e Ho He. destruct recs as [| o0 recs]; [destruct Ho |].
    destruct (grid_m_Raise _ _
                (Ui.cell_of poster percent (Ui.sidebar DEFAULT_API_KEY w))
                (o0 :: recs) o e Ho) as [e' Hraise].
    { unfold Ui.cell_of. rewrite Hscore, He. reflexivity. }
    exists e'. rewrite Hraise. reflexivity.
Qed.

Lemma page_for_selected_title_witness :
  RangeIndex example_movies
  /\ square_for example_movies example_similarity
  /\ In (Ui.selectbox (Ui.mk_widgets 3 false "" "A" true))
        (title_list example_movies)
  /\ Ui.button (Ui.mk_widgets 3 false "" "A" true) = true
  /\ 3 <= Ui.slider (Ui.mk_widgets 3 false "" "A" true) <= 12
  /\ exists recs,
       recommend_movie example_movies example_similarity
         (Ui.selectbox (Ui.mk_widgets 3 false "" "A" true))
         (Ui.slider (Ui.mk_widgets 3 false "" "A" true))
       = Return recs
       /\ length recs
          = Nat.min (Z.to_nat (Ui.slider (Ui.mk_widgets 3 false "" "A" true)))
                    (catalog_size example_movies - 1)
       /\ (catalog_size example_movies = 1%nat ->
           Ui.main example_movies example_similarity (poster_of net_down)
             exact_percent "" (Ui.mk_widgets 3 false "" "A" true)
           = Return Ui.Warning)
       /\ (catalog_size example_movies <> 1%nat ->
           (forall o, In o recs ->
              exists n, exact_percent (score_of o) = Return n) ->
           exists cells,
             Ui.main example_movies example_similarity (poster_of net_down)
               exact_percent "" (Ui.mk_widgets 3 false "" "A" true)
             = Return (Ui.Cards (Ui.grid (fun cell => cell) cells))
             /\ Forall2
                  (fun o cell =>
                     fst cell
                     = Ui.card_of (poster_of net_down)
                         (Ui.sidebar "" (Ui.mk_widgets 3 false "" "A" true))
                         o
                     /\ exact_percent (score_of o) = Return (snd cell))
                  recs cells)
       /\ (forall o e, In o recs ->
           exact_percent (score_of o) = Raise e ->
           exists e',
             Ui.main example_movies example_similarity (poster_of net_down)
               exact_percent "" (Ui.mk_widgets 3 false "" "A" true)
             = Raise e').
Proof.
  split; [on_example |].
  split; [on_example |].
  split; [left; reflexivity |].
  split; [reflexivity |].
  split; [split; discriminate |].
  apply (page_for_selected_title example_movies example_similarity
           (poster_of net_down) exact_percent ""
           (Ui.mk_widgets 3 false "" "A" true)).
  - on_example.
  - on_example.
  - left; reflexivity.
  - reflexivity.
  - split; discriminate.
Defined.

(** The page for [A] with three recommendations and no posters: one full
    row, captions 95, 90 and 20; with a caption that fails, an
    exception. *)
Example page_example :
  Ui.main example_movies example_similarity (poster_of net_down)
    exact_percent "" (Ui.mk_widgets 3 false "" "A" true)
  = Return (Ui.Cards
              [[Some (Ui.mk_card None "C" (95 # 100), 95);
                Some (Ui.mk_card None "B" (9 # 10), 90);
                Some (Ui.mk_card None "D" (2 # 10), 20)]])
  /\ Ui.main example_movies example_similarity (poster_of net_down)
       failing_percent "" (Ui.mk_widgets 3 false "" "A" true)
     = Raise ValueError.
Proof. split; reflexivity. Qed.
